(** * The price store of the Yalo Prices API (app.py)

    A shallow embedding of [app.py]: the record normalizer
    ([normalize_bool], [normalize_row]), the identity function
    ([make_id]) and the three handlers over the [prices] table
    ([list_prices], [upsert_price], [reset_prices]), followed by the
    properties of the store.

    Conventions.
    - A Python [str] is a [string]; each character stands for the code
      point of the same number, so the strings covered are those over
      U+0000..U+00FF.
    - A Python [float] is a binary64 value, [PrimFloat.float].
    - A request body is a JSON document already parsed by the framework:
      [None], [bool], [int], [float], [str], [list] and [dict] with [str]
      keys ([pyval]).
    - The TEXT payload of a row is represented by the JSON document it
      spells ([json]); [json.dumps] and [json.loads] map between Python
      values and documents.
    - An exception is a value of [exn]; a computation that may raise
      returns [result A = exn + A].
    - The database file is the list of its rows in rowid order; a
      connection carries the file and its own uncommitted view of it. *)

From Stdlib Require Import ZArith List String Ascii Bool Lia Floats DecimalString.
From Stdlib Require Import Permutation Sorted.
Import ListNotations.
Open Scope string_scope.
Open Scope Z_scope.

Set Warnings "-register-all,-inexact-float".

(** * The Python runtime the handlers rely on *)

(** ** [str] methods *)

Module PyStr.

Definition code (c : ascii) : Z := Z.of_N (N_of_ascii c).

Definition chr (n : Z) : ascii := ascii_of_N (Z.to_N n).

Definition between (lo hi n : Z) : bool := (lo <=? n) && (n <=? hi).

(* str.isspace on one character *)
Definition isspace (c : ascii) : bool :=
  let n := code c in
  between 9 13 n || between 28 32 n || (n =? 133) || (n =? 160).

Fixpoint lstrip (s : string) : string :=
  match s with
  | String c s' => if isspace c then lstrip s' else s
  | EmptyString => EmptyString
  end.

Fixpoint rstrip (s : string) : string :=
  match s with
  | EmptyString => EmptyString
  | String c s' =>
      match rstrip s' with
      | EmptyString => if isspace c then EmptyString else String c EmptyString
      | r => String c r
      end
  end.

(* s.strip() *)
Definition strip (s : string) : string := rstrip (lstrip s).

Definition lower_char (c : ascii) : ascii :=
  let n := code c in
  if between 65 90 n || (between 192 222 n && negb (n =? 215))
  then chr (n + 32) else c.

(* s.lower() *)
Fixpoint lower (s : string) : string :=
  match s with
  | EmptyString => EmptyString
  | String c s' => String (lower_char c) (lower s')
  end.

(* not s *)
Definition is_empty (s : string) : bool :=
  match s with EmptyString => true | _ => false end.

Definition isdigit (c : ascii) : bool := between 48 57 (code c).

(* str(n) for an int n *)
Definition of_int (n : Z) : string := NilZero.string_of_int (Z.to_int n).

Fixpoint repeat (c : ascii) (n : nat) : string :=
  match n with O => EmptyString | S n' => String c (repeat c n') end.

Fixpoint mem (c : ascii) (s : string) : bool :=
  match s with
  | EmptyString => false
  | String d s' => Ascii.eqb c d || mem c s'
  end.

Definition hex_digit (n : Z) : ascii :=
  if n <? 10 then chr (48 + n) else chr (87 + n).

(* str.isprintable on one character *)
Definition isprintable (c : ascii) : bool :=
  let n := code c in
  between 32 126 n || (between 161 255 n && negb (n =? 173)).

Fixpoint repr_body (q : ascii) (s : string) : string :=
  match s with
  | EmptyString => EmptyString
  | String c s' =>
      let n := code c in
      (if Ascii.eqb c q || (n =? 92) then String "\" (String c EmptyString)
       else if n =? 9 then "\t"
       else if n =? 10 then "\n"
       else if n =? 13 then "\r"
       else if isprintable c then String c EmptyString
       else String "\" (String "x" (String (hex_digit (n / 16))
                                      (String (hex_digit (n mod 16)) EmptyString))))
      ++ repr_body q s'
  end.

(* repr(s) for a str s *)
Definition repr (s : string) : string :=
  let q := if mem "'" s && negb (mem "034" s) then "034"%char else "'"%char in
  String q (repr_body q s ++ String q EmptyString).

End PyStr.

(** ** [float] conversions *)

Module PyFloat.

Definition of_SF (x : spec_float) : float := SF2Prim x.

(* the binary64 value nearest to m * 2^e, ties to even *)
Definition round_bin (m e : Z) (neg : bool) : spec_float :=
  binary_normalize prec emax (if neg then - m else m) e neg.

(* the binary64 value nearest to m * 10^k, ties to even, for m >= 0 *)
Definition round_dec (neg : bool) (m k : Z) : spec_float :=
  if m =? 0 then S754_zero neg
  else
    let bits := Z.log2 m + 1 in
    if 310 <? k + (bits - 1) * 30103 / 100000 then S754_infinity neg
    else if k + bits * 30103 / 100000 + 1 <? -330 then S754_zero neg
    else if 0 <=? k then round_bin (m * 10 ^ k) 0 neg
    else
      let d := 10 ^ (- k) in
      let s := Z.max 0 (64 + Z.log2_up d - Z.log2 m) in
      let q := (m * 2 ^ s) / d in
      let r := (m * 2 ^ s) mod d in
      round_bin (2 * q + (if r =? 0 then 0 else 1)) (- s - 1) neg.

(* float(n) for an int n; None is OverflowError *)
Definition of_int (n : Z) : option float :=
  match round_bin (Z.abs n) 0 (n <? 0) with
  | S754_infinity _ => None
  | x => Some (of_SF x)
  end.

(** ** float(s) for a str s *)

Definition digit (c : ascii) : Z := PyStr.code c - 48.

(* the longest run of digits at the head of [s]: the number it extends
   [acc] to, its length, and what follows *)
Fixpoint digits (s : string) (acc n : Z) : Z * Z * string :=
  match s with
  | String c s' =>
      if PyStr.isdigit c then digits s' (10 * acc + digit c) (n + 1)
      else (acc, n, s)
  | EmptyString => (acc, n, s)
  end.

Definition sign (s : string) : bool * string :=
  match s with
  | String "-" s' => (true, s')
  | String "+" s' => (false, s')
  | _ => (false, s)
  end.

(* mantissa and decimal exponent of an unsigned decimal literal *)
Definition decimal (s : string) : option (Z * Z) :=
  let '(ip, ni, r1) := digits s 0 0 in
  let '(m, nf, r2) :=
    match r1 with
    | String "." r => digits r ip 0
    | _ => (ip, 0, r1)
    end in
  if ni + nf =? 0 then None
  else
    match r2 with
    | EmptyString => Some (m, - nf)
    | String c r =>
        if Ascii.eqb c "e" || Ascii.eqb c "E" then
          let '(eneg, r3) := sign r in
          let '(e, ne, r4) := digits r3 0 0 in
          if (ne =? 0) || negb (PyStr.is_empty r4) then None
          else Some (m, (if eneg then - e else e) - nf)
        else None
    end.

(* underscores may stand between two digits only; they are dropped *)
Fixpoint underscores (prev : ascii) (s : string) : option string :=
  match s with
  | EmptyString => if Ascii.eqb prev "_" then None else Some EmptyString
  | String c s' =>
      if Ascii.eqb c "_" then
        if PyStr.isdigit prev then underscores c s' else None
      else if Ascii.eqb prev "_" && negb (PyStr.isdigit c) then None
      else option_map (String c) (underscores c s')
  end.

(* the blanks float() skips at both ends *)
Definition blank (c : ascii) : bool :=
  let n := PyStr.code c in
  PyStr.between 9 13 n || (n =? 32) || (n =? 133) || (n =? 160).

Fixpoint lskip (s : string) : string :=
  match s with
  | String c s' => if blank c then lskip s' else s
  | EmptyString => EmptyString
  end.

Fixpoint rskip (s : string) : string :=
  match s with
  | EmptyString => EmptyString
  | String c s' =>
      match rskip s' with
      | EmptyString => if blank c then EmptyString else String c EmptyString
      | r => String c r
      end
  end.

Definition of_str (s : string) : option float :=
  match underscores Ascii.zero (rskip (lskip s)) with
  | None => None
  | Some t =>
      let '(neg, u) := sign t in
      let w := PyStr.lower u in
      if String.eqb w "inf" || String.eqb w "infinity"
      then Some (of_SF (S754_infinity neg))
      else if String.eqb w "nan" then Some (of_SF S754_nan)
      else option_map (fun '(m, k) => of_SF (round_dec neg m k)) (decimal u)
  end.

(** ** repr(x) for a float x *)

(* is num/den >= 10^t ? *)
Definition ge_pow10 (num den t : Z) : bool :=
  if 0 <=? t then 10 ^ t * den <=? num else den <=? num * 10 ^ (- t).

Fixpoint adjust (fuel : nat) (num den t : Z) : Z :=
  match fuel with
  | O => t
  | S f => if ge_pow10 num den (t + 1) then adjust f num den (t + 1) else t
  end.

(* floor (log10 (num/den)) *)
Definition log10_floor (num den : Z) : Z :=
  let est := (Z.log2 num - Z.log2 den) * 30103 / 100000 - 2 in
  adjust 8 num den est.

(* floor (num/den / 10^k) *)
Definition scaled_floor (num den k : Z) : Z :=
  if 0 <=? k then num / (den * 10 ^ k) else (num * 10 ^ (- k)) / den.

Definition reads_back (x : spec_float) (c k : Z) : bool :=
  match SFcompare (round_dec false c k) x with
  | Some Eq => true
  | _ => false
  end.

(* the [n]-digit decimal c * 10^k that reads back as num/den, the nearer
   one when both neighbours do *)
Definition candidate (x : spec_float) (num den t : Z) (n : Z) : option (Z * Z) :=
  let k := t - (n - 1) in
  let lo := scaled_floor num den k in
  let hi := lo + 1 in
  (* the distance to each neighbour, in units of 10^k / den *)
  let dlo := if 0 <=? k then num - lo * 10 ^ k * den
             else num * 10 ^ (- k) - lo * den in
  let dhi := if 0 <=? k then hi * 10 ^ k * den - num
             else hi * den - num * 10 ^ (- k) in
  match reads_back x lo k, reads_back x hi k with
  | true, true =>
      if dlo <? dhi then Some (lo, k)
      else if dhi <? dlo then Some (hi, k)
      else if Z.even lo then Some (lo, k) else Some (hi, k)
  | true, false => Some (lo, k)
  | false, true => Some (hi, k)
  | false, false => None
  end.

Fixpoint shortest (fuel : nat) (x : spec_float) (num den t n : Z) : Z * Z :=
  match fuel with
  | O => (scaled_floor num den (t - 16), t - 16)
  | S f =>
      match candidate x num den t n with
      | Some ck => ck
      | None => shortest f x num den t (n + 1)
      end
  end.

Fixpoint drop_zeros (fuel : nat) (c k : Z) : Z * Z :=
  match fuel with
  | O => (c, k)
  | S f => if (c mod 10 =? 0) && negb (c =? 0) then drop_zeros f (c / 10) (k + 1)
           else (c, k)
  end.

Definition exponent (e : Z) : string :=
  let a := PyStr.of_int (Z.abs e) in
  (if e <? 0 then "e-" else "e+") ++ (if Z.abs e <? 10 then "0" ++ a else a).

(* the digits of a positive finite float and the position of its
   decimal point, laid out as float.__repr__ does *)
Definition layout (ds : string) (decpt : Z) : string :=
  let n := Z.of_nat (String.length ds) in
  if (decpt <=? -4) || (16 <? decpt) then
    match ds with
    | String d EmptyString => String d (exponent (decpt - 1))
    | String d rest => String d ("." ++ rest ++ exponent (decpt - 1))
    | EmptyString => EmptyString
    end
  else if decpt <=? 0 then
    "0." ++ PyStr.repeat "0" (Z.to_nat (- decpt)) ++ ds
  else if decpt <? n then
    substring 0 (Z.to_nat decpt) ds ++ "." ++
    substring (Z.to_nat decpt) (Z.to_nat (n - decpt)) ds
  else
    ds ++ PyStr.repeat "0" (Z.to_nat (decpt - n)) ++ ".0".

Definition repr_SF (x : spec_float) : string :=
  match x with
  | S754_nan => "nan"
  | S754_infinity neg => if neg then "-inf" else "inf"
  | S754_zero neg => if neg then "-0.0" else "0.0"
  | S754_finite neg m e =>
      let ax := S754_finite false m e in
      let num := if 0 <=? e then Zpos m * 2 ^ e else Zpos m in
      let den := if 0 <=? e then 1 else 2 ^ (- e) in
      let t := log10_floor num den in
      let '(c0, k0) := shortest 17 ax num den t 1 in
      let '(c, k) := drop_zeros 20 c0 k0 in
      let ds := PyStr.of_int c in
      (if neg then "-" else "") ++ layout ds (k + Z.of_nat (String.length ds))
  end.

Definition repr (x : float) : string := repr_SF (Prim2SF x).

End PyFloat.

(** ** Values, exceptions, [str()], [float()] *)

Inductive pyval : Type :=
| PNone
| PBool (b : bool)
| PInt (n : Z)
| PFloat (x : float)
| PStr (s : string)
| PList (l : list pyval)
| PDict (d : list (string * pyval)).

(* a dict with str keys, in insertion order *)
Definition pydict : Type := list (string * pyval).

Inductive exn : Type :=
| ValueError (msg : string)
| TypeError (msg : string)
| OverflowError (msg : string)
| HTTPException (status_code : Z) (detail : string).

Definition result (A : Type) : Type := (exn + A)%type.

(* sep.join(l) *)
Fixpoint join (sep : string) (l : list string) : string :=
  match l with
  | [] => ""
  | [s] => s
  | s :: l' => s ++ sep ++ join sep l'
  end.

(* repr(v) *)
Fixpoint py_repr (v : pyval) : string :=
  match v with
  | PNone => "None"
  | PBool b => if b then "True" else "False"
  | PInt n => PyStr.of_int n
  | PFloat x => PyFloat.repr x
  | PStr s => PyStr.repr s
  | PList l => "[" ++ join ", " (map py_repr l) ++ "]"
  | PDict d =>
      "{" ++ join ", " (map (fun kv => match kv with
                                      | (k, w) => PyStr.repr k ++ ": " ++ py_repr w
                                      end) d) ++ "}"
  end.

(* str(v) *)
Definition py_str (v : pyval) : string :=
  match v with
  | PStr s => s
  | _ => py_repr v
  end.

(* type(v).__name__ *)
Definition type_name (v : pyval) : string :=
  match v with
  | PNone => "NoneType"
  | PBool _ => "bool"
  | PInt _ => "int"
  | PFloat _ => "float"
  | PStr _ => "str"
  | PList _ => "list"
  | PDict _ => "dict"
  end.

(* float(v) *)
Definition py_float (v : pyval) : result float :=
  match v with
  | PBool b => inr (if b then 1 else 0)%float
  | PInt n =>
      match PyFloat.of_int n with
      | Some x => inr x
      | None => inl (OverflowError "int too large to convert to float")
      end
  | PFloat x => inr x
  | PStr s =>
      match PyFloat.of_str s with
      | Some x => inr x
      | None => inl (ValueError ("could not convert string to float: " ++ PyStr.repr s))
      end
  | _ =>
      inl (TypeError ("float() argument must be a string or a real number, not '"
                      ++ type_name v ++ "'"))
  end.

(** ** [dict] operations *)

(* d.get(k) *)
Fixpoint dict_get (d : pydict) (k : string) : option pyval :=
  match d with
  | [] => None
  | (k', v) :: d' => if String.eqb k k' then Some v else dict_get d' k
  end.

(* d.get(k, dflt) *)
Definition get_default (d : pydict) (k : string) (dflt : pyval) : pyval :=
  match dict_get d k with
  | Some v => v
  | None => dflt
  end.

(* d[k] = v *)
Fixpoint dict_set (d : pydict) (k : string) (v : pyval) : pydict :=
  match d with
  | [] => [(k, v)]
  | (k', v') :: d' =>
      if String.eqb k k' then (k, v) :: d' else (k', v') :: dict_set d' k v
  end.

(** ** [json.dumps] and [json.loads] *)

Inductive json : Type :=
| JNull
| JBool (b : bool)
| JInt (n : Z)
| JFloat (x : float)
| JString (s : string)
| JArray (l : list json)
| JObject (members : list (string * json)).

Fixpoint json_dumps (v : pyval) : json :=
  match v with
  | PNone => JNull
  | PBool b => JBool b
  | PInt n => JInt n
  | PFloat x => JFloat x
  | PStr s => JString s
  | PList l => JArray (map json_dumps l)
  | PDict d => JObject (map (fun kv => match kv with
                                       | (k, w) => (k, json_dumps w)
                                       end) d)
  end.

Fixpoint json_loads (j : json) : pyval :=
  match j with
  | JNull => PNone
  | JBool b => PBool b
  | JInt n => PInt n
  | JFloat x => PFloat x
  | JString s => PStr s
  | JArray l => PList (map json_loads l)
  | JObject ms => PDict (map (fun kv => match kv with
                                        | (k, w) => (k, json_loads w)
                                        end) ms)
  end.

(** * The record normalizer and the identity function *)

(* the dict normalize_row returns: its four entries *)
Record price_record : Type := {
  sku : string;
  key : string;
  price : float;
  isActive : bool
}.

Definition as_dict (r : price_record) : pydict :=
  [("sku", PStr (sku r)); ("key", PStr (key r));
   ("price", PFloat (price r)); ("isActive", PBool (isActive r))].

Definition truthy : list string := ["true"; "1"; "yes"; "y"; "sim"].

Definition normalize_bool (v : pyval) : bool :=
  match v with
  | PBool b => b
  | PNone => false
  | _ => existsb (String.eqb (PyStr.lower (PyStr.strip (py_str v)))) truthy
  end.

Definition normalize_row (row : pydict) : result price_record :=
  let sku := PyStr.strip (py_str (get_default row "sku" (PStr ""))) in
  let key := PyStr.strip (py_str (get_default row "key" (PStr ""))) in
  if PyStr.is_empty sku || PyStr.is_empty key then
    inl (ValueError "sku and key are required")
  else
    let price := get_default row "price" PNone in
    match price with
    | PNone => inl (ValueError "price is required")
    | _ =>
        if String.eqb (PyStr.strip (py_str price)) "" then
          inl (ValueError "price is required")
        else
          match py_float price with
          | inl e => inl e
          | inr price =>
              let is_active := normalize_bool (get_default row "isActive" (PBool true)) in
              inr {| sku := sku; key := key; price := price; isActive := is_active |}
          end
    end.

Definition make_id (sku key : string) : string := sku ++ "::" ++ key.

(** * The database *)

(* a row of [prices]: id, data *)
Definition row : Type := (string * json)%type.

(* the rows of [prices], in rowid order *)
Definition table : Type := list row.

(* a connection: the committed file, and the rows as this connection
   sees them, uncommitted writes included *)
Record connection : Type := { file : table; view : table }.

(* a computation on a connection, which may raise *)
Definition db (A : Type) : Type := connection -> result A * connection.

Definition ret {A : Type} (a : A) : db A := fun c => (inr a, c).

Definition raise {A : Type} (e : exn) : db A := fun c => (inl e, c).

Definition bind {A B : Type} (m : db A) (k : A -> db B) : db B :=
  fun c =>
    match m c with
    | (inl e, c') => (inl e, c')
    | (inr a, c') => k a c'
    end.

Notation "x <- m ;; k" := (bind m (fun x => k))
  (at level 61, m at next level, right associativity).
Notation "m ;; k" := (bind m (fun _ => k))
  (at level 61, right associativity).

(* a computation that does not touch the connection *)
Definition lift {A : Type} (r : result A) : db A := fun c => (r, c).

(* sqlite3.connect(DB_PATH): nothing is pending *)
Definition connect (f : table) : connection := {| file := f; view := f |}.

(* conn.commit() *)
Definition commit : db unit :=
  fun c => (inr tt, {| file := view c; view := view c |}).

(* conn.close(): what was not committed is rolled back *)
Definition close (c : connection) : table := file c.

(* DELETE FROM prices *)
Definition delete_all : db unit :=
  fun c => (inr tt, {| file := file c; view := [] |}).

Definition has_id (pid : string) (r : row) : bool := String.eqb (fst r) pid.

(* INSERT OR REPLACE INTO prices (id, data) VALUES (pid, data): the row that
   holds the primary key goes, the new row takes the next rowid *)
Definition replace_row (pid : string) (data : json) (t : table) : table :=
  (filter (fun r => negb (has_id pid r)) t ++ [(pid, data)])%list.

Definition insert_or_replace (pid : string) (data : json) : db unit :=
  fun c => (inr tt, {| file := file c; view := replace_row pid data (view c) |}).

(* SELECT data FROM prices, fetchall() *)
Definition select_data : db (list json) :=
  fun c => (inr (map snd (view c)), c).

(* CREATE TABLE IF NOT EXISTS leaves the rows as they are *)
Definition get_db (f : table) : connection := connect f.

(* try: body finally: conn.close() *)
Definition try_finally_close {A : Type} (body : db A) (c : connection)
  : result A * table :=
  let '(r, c') := body c in (r, close c').

Fixpoint for_each {A : Type} (body : A -> db unit) (l : list A) : db unit :=
  match l with
  | [] => ret tt
  | x :: l' => body x ;; for_each body l'
  end.

(** * The handlers *)

(* what a handler does: the value it returns or the exception that leaves
   it, and the file afterwards *)
Definition handler (A : Type) : Type := table -> result A * table.

Definition health : pyval := PDict [("status", PStr "ok")].

(** ** [list.sort(key=...)] on (sku, key) pairs *)

(* (a, b) < (c, d) on tuples of str *)
Definition tuple_lt (a b : string * string) : bool :=
  if String.eqb (fst a) (fst b) then String.ltb (snd a) (snd b)
  else String.ltb (fst a) (fst b).

(* lambda x: (x.get("sku", ""), x.get("key", "")), on a dict whose two
   entries are str; None otherwise *)
Definition sort_key (x : pyval) : option (string * string) :=
  match x with
  | PDict d =>
      match get_default d "sku" (PStr ""), get_default d "key" (PStr "") with
      | PStr a, PStr b => Some (a, b)
      | _, _ => None
      end
  | _ => None
  end.

Fixpoint decorate (rows : list pyval) : option (list (string * string * pyval)) :=
  match rows with
  | [] => Some []
  | x :: rows' =>
      match sort_key x, decorate rows' with
      | Some k, Some l => Some ((k, x) :: l)
      | _, _ => None
      end
  end.

Fixpoint insert (x : string * string * pyval) (l : list (string * string * pyval))
  : list (string * string * pyval) :=
  match l with
  | [] => [x]
  | y :: l' => if tuple_lt (fst y) (fst x) then y :: insert x l' else x :: y :: l'
  end.

(* a stable sort on the keys *)
Fixpoint sort (l : list (string * string * pyval)) : list (string * string * pyval) :=
  match l with
  | [] => []
  | x :: l' => insert x (sort l')
  end.

(* rows.sort(key=...); None when some row is not a dict with str sku and
   key: no handler writes such a row, and what list.sort does with one is
   left out *)
Definition sort_rows (rows : list pyval) : option (list pyval) :=
  option_map (fun l => map snd (sort l)) (decorate rows).

(** ** GET /prices *)

Definition list_prices : table -> option (list pyval) * table :=
  fun f =>
    let '(r, f') := try_finally_close select_data (get_db f) in
    match r with
    | inr datas => (sort_rows (map json_loads datas), f')
    | inl _ => (None, f')
    end.

(** ** PUT /prices/{sku}/{key} *)

Definition upsert_price (sku key : string) (payload : pydict) : handler pyval :=
  fun f =>
    let payload := dict_set (dict_set payload "sku" (PStr sku)) "key" (PStr key) in
    match normalize_row payload with
    | inl (ValueError e) => (inl (HTTPException 400 e), f)
    | inl e => (inl e, f)
    | inr data =>
        let pid := make_id sku key in
        try_finally_close
          (insert_or_replace pid (json_dumps (PDict (as_dict data))) ;;
           commit ;;
           ret (PDict [("status", PStr "ok"); ("id", PStr pid);
                       ("price", PDict (as_dict data))]))
          (get_db f)
    end.

(** ** POST /prices/reset *)

Definition reset_prices (items : list pydict) : handler pyval :=
  fun f =>
    try_finally_close
      (delete_all ;;
       for_each (fun item =>
                   data <- lift (normalize_row item) ;;
                   let pid := make_id (sku data) (key data) in
                   insert_or_replace pid (json_dumps (PDict (as_dict data))))
                items ;;
       commit ;;
       ret (PDict [("status", PStr "ok");
                   ("count", PInt (Z.of_nat (List.length items)))]))
      (get_db f).

(** ** The status the framework answers with *)

Definition status_of {A : Type} (r : result A) : Z :=
  match r with
  | inr _ => 200
  | inl (HTTPException code _) => code
  | inl _ => 500
  end.

(** * What is in the store *)

(* the row a record is stored as by reset_prices *)
Definition record_id (r : price_record) : string := make_id (sku r) (key r).

Definition record_data (r : price_record) : json := json_dumps (PDict (as_dict r)).

(* the view after the records of a batch were written in turn *)
Definition write_all (rs : list price_record) (t : table) : table :=
  fold_left (fun t r => replace_row (record_id r) (record_data r) t) rs t.

(* every element of a batch normalizes, to these records *)
Definition all_normalize (items : list pydict) (rs : list price_record) : Prop :=
  Forall2 (fun item r => normalize_row item = inr r) items rs.

(* some element of a batch fails normalization *)
Definition some_fails (items : list pydict) : Prop :=
  Exists (fun item => exists e, normalize_row item = inl e) items.

(* every row holds a record as the handlers write it *)
Definition holds_records (t : table) : Prop :=
  Forall (fun r => exists d, snd r = record_data d) t.

(* every row is stored under the id made of the sku and key of the record
   it holds *)
Definition keyed_by_record (t : table) : Prop :=
  Forall (fun r => exists d, r = (record_id d, record_data d)) t.

(** * The vocabulary of the statements *)

(* the body of the loop of reset_prices *)
Definition reset_step (item : pydict) : db unit :=
  data <- lift (normalize_row item) ;;
  let pid := make_id (sku data) (key data) in
  insert_or_replace pid (json_dumps (PDict (as_dict data))).

(* the body of PUT once the path segments are forced into it *)
Definition forced (sku0 key0 : string) (payload : pydict) : pydict :=
  dict_set (dict_set payload "sku" (PStr sku0)) "key" (PStr key0).

(* the rows of a file, decoded *)
Definition decoded (f : table) : list pyval := map json_loads (map snd f).

(* r is stored under another id than pid *)
Definition other_than (pid : string) (r : row) : bool := negb (has_id pid r).

(* i is none of ids *)
Definition not_in (ids : list string) (i : string) : bool :=
  negb (existsb (String.eqb i) ids).

(* x is a dict whose sku and key are a and b *)
Definition has_pair (a b : string) (x : pyval) : bool :=
  match sort_key x with
  | Some (a', b') => String.eqb a' a && String.eqb b' b
  | None => false
  end.

(* str(row.get(k, "")).strip() *)
Definition field (row : pydict) (k : string) : string :=
  PyStr.strip (py_str (get_default row k (PStr ""))).

(* price is None or str(price).strip() == "": the entry is absent, null,
   or blank *)
Definition price_missing (row : pydict) : Prop :=
  get_default row "price" PNone = PNone \/
  PyStr.strip (py_str (get_default row "price" PNone)) = "".

(* a < b and a <= b on str: by code point, lexicographically *)
Definition str_lt (a b : string) : Prop := String.compare a b = Lt.

Definition str_le (a b : string) : Prop := String.compare a b <> Gt.

(* (a, b) <= (c, d), lexicographically *)
Definition lex_le (x y : string * string) : Prop :=
  str_lt (fst x) (fst y) \/ (fst x = fst y /\ str_le (snd x) (snd y)).

(* a row and the key list.sort compares it by *)
Definition keyed : Type := (string * string * pyval)%type.

Definition keyed_le (x y : keyed) : Prop := lex_le (fst x) (fst y).

(* every element carries the key of its row *)
Definition well_keyed (l : list keyed) : Prop :=
  Forall (fun p => sort_key (snd p) = Some (fst p)) l.

(* x sorts before y, or with it: both are dicts with str sku and key, and
   the pair of x is at most the pair of y *)
Definition row_le (x y : pyval) : Prop :=
  exists a b, sort_key x = Some a /\ sort_key y = Some b /\ lex_le a b.

(** * Sample data *)

(* records, elements of a batch, a file and bodies to evaluate the
   handlers on *)
Definition record_A : price_record :=
  {| sku := "A"; key := "k"; price := 1; isActive := true |}.

Definition record_A' : price_record :=
  {| sku := "A"; key := "k"; price := 7; isActive := true |}.

Definition record_B : price_record :=
  {| sku := "B"; key := "k"; price := 5; isActive := true |}.

Definition item_A : pydict :=
  [("sku", PStr "A"); ("key", PStr "k"); ("price", PInt 1)].

Definition item_A' : pydict :=
  [("sku", PStr "A"); ("key", PStr "k"); ("price", PInt 7)].

(* an element whose sku is blank *)
Definition item_blank : pydict :=
  [("sku", PStr " "); ("key", PStr "k"); ("price", PInt 2)].

(* a file where B was stored before A *)
Definition file_BA : table :=
  [(record_id record_B, record_data record_B);
   (record_id record_A, record_data record_A)].

(* a body that carries its own sku and key, sent to a path with blanks *)
Definition body_zz : pydict :=
  [("sku", PStr "zzz"); ("price", PStr "1e3"); ("key", PStr "other")].

(* a row whose price is not a number *)
Definition row_abc : pydict :=
  [("sku", PStr "a"); ("key", PStr "k"); ("price", PStr "abc")].

(** * The rest of app.py: configuration, authentication, startup *)

(* os.environ *)
Definition environ : Type := list (string * string).

(* os.getenv(name, dflt) *)
Fixpoint getenv (env : environ) (name dflt : string) : string :=
  match env with
  | [] => dflt
  | (n, v) :: env' => if String.eqb name n then v else getenv env' name dflt
  end.

Definition BASIC_USER (env : environ) : string :=
  getenv env "API_BASIC_USER" "yalo-demo".

Definition BASIC_PASS (env : environ) : string :=
  getenv env "API_BASIC_PASSWORD" "change-me".

(* s.isascii() *)
Fixpoint isascii (s : string) : bool :=
  match s with
  | EmptyString => true
  | String c s' => (PyStr.code c <? 128) && isascii s'
  end.

(* secrets.compare_digest(a, b) on two str: it refuses what is not ASCII *)
Definition compare_digest (a b : string) : result bool :=
  if isascii a && isascii b then inr (String.eqb a b)
  else inl (TypeError "comparing strings with non-ASCII characters is not supported").

Record HTTPBasicCredentials : Type := { username : string; password : string }.

Definition require_basic_auth (env : environ) (credentials : HTTPBasicCredentials)
  : result bool :=
  match compare_digest (username credentials) (BASIC_USER env) with
  | inl e => inl e
  | inr ok_user =>
      match compare_digest (password credentials) (BASIC_PASS env) with
      | inl e => inl e
      | inr ok_pass =>
          if negb (ok_user && ok_pass) then inl (HTTPException 401 "Unauthorized")
          else inr true
      end
  end.

(* dependencies=[Depends(dep)]: the handler runs once the dependency has
   returned; an exception of the dependency is the answer *)
Definition depends {A : Type} (dep : result bool) (h : handler A) : handler A :=
  fun f =>
    match dep with
    | inl e => (inl e, f)
    | inr _ => h f
    end.

(* the two writing routes as the application serves them *)
Definition put_price (env : environ) (credentials : HTTPBasicCredentials)
           (sku key : string) (payload : pydict) : handler pyval :=
  depends (require_basic_auth env credentials) (upsert_price sku key payload).

Definition post_reset (env : environ) (credentials : HTTPBasicCredentials)
           (items : list pydict) : handler pyval :=
  depends (require_basic_auth env credentials) (reset_prices items).

(* load_from_excel_if_exists. The sheet is None when EXCEL_PATH does not
   exist; otherwise it is what pandas reads, row by row, each row as the
   dict the loop builds from it: column name, trimmed, to cell (a cell
   left empty is the float nan) *)
Definition load_from_excel_if_exists (sheet : option (list pydict)) : handler unit :=
  fun f =>
    match sheet with
    | None => (inr tt, f)
    | Some rows =>
        try_finally_close
          (for_each (fun row =>
                       data <- lift (normalize_row row) ;;
                       let pid := make_id (sku data) (key data) in
                       insert_or_replace pid (json_dumps (PDict (as_dict data))))
                    rows ;;
           commit)
          (get_db f)
    end.

Definition startup_event (sheet : option (list pydict)) : handler unit :=
  load_from_excel_if_exists sheet.

(** * More vocabulary *)

(* s is not empty and has no blank at either end *)
Definition clean (s : string) : Prop := s <> "" /\ PyStr.strip s = s.

(* no colon in s *)
Fixpoint no_colon (s : string) : bool :=
  match s with
  | EmptyString => true
  | String c s' => negb (Ascii.eqb c ":") && no_colon s'
  end.

(* the row of a record *)
Definition record_row (r : price_record) : row := (record_id r, record_data r).

(* the rows a batch leaves: for each id the row of the last record with
   that id, in the order of these last records *)
Fixpoint last_rows (rs : list price_record) : table :=
  match rs with
  | [] => []
  | r :: rs' =>
      if existsb (String.eqb (record_id r)) (map record_id rs') then last_rows rs'
      else record_row r :: last_rows rs'
  end.

(* r is stored under none of ids *)
Definition row_not_in (ids : list string) (r : row) : bool := not_in ids (fst r).

(* the ids are pairwise distinct (the primary key) and every row is the
   row of a record with clean sku and key *)
Definition normal_file (t : table) : Prop :=
  NoDup (map fst t) /\
  Forall (fun x => exists r, x = record_row r /\ clean (sku r) /\ clean (key r)) t.

(* the exceptions float() raises on what is not a str *)
Definition float_refuses (p : pyval) : Prop :=
  (exists l, p = PList l) \/ (exists d, p = PDict d) \/
  (exists n, p = PInt n /\ PyFloat.of_int n = None).

(* two bodies say the same about price and isActive *)
Definition same_price_fields (p q : pydict) : Prop :=
  dict_get p "price" = dict_get q "price" /\
  dict_get p "isActive" = dict_get q "isActive".

(* a string that begins with something else than a blank *)
Definition solid (s : string) : Prop :=
  exists c t, s = String c t /\ PyStr.isspace c = false.

(* every row holds a record whose sku and key are clean *)
Definition clean_records (t : table) : Prop :=
  Forall (fun x => exists r, snd x = record_data r /\ clean (sku r) /\ clean (key r)) t.

(* a sheet and a body for the startup import *)
Definition sheet_AB : list pydict :=
  [[("sku", PStr "A"); ("key", PStr "k"); ("price", PFloat 2.5)];
   [("sku", PStr "C"); ("key", PStr "k"); ("price", PInt 4); ("isActive", PStr "no")];
   [("sku", PStr " A "); ("key", PStr "k"); ("price", PStr "3")]].

Definition sheet_bad : list pydict :=
  [[("sku", PStr "A"); ("key", PStr "k"); ("price", PFloat 2.5)];
   [("sku", PStr "C"); ("key", PStr "k"); ("price", PStr "n/a")]].

(* the exception is none the handlers raise themselves *)
Definition unhandled (e : exn) : Prop :=
  forall code detail, e <> HTTPException code detail.

(* credentials and configuration hold ASCII only *)
Definition ascii_only (env : environ) (credentials : HTTPBasicCredentials) : Prop :=
  isascii (username credentials) = true /\ isascii (password credentials) = true /\
  isascii (BASIC_USER env) = true /\ isascii (BASIC_PASS env) = true.

(* the credentials are the configured ones *)
Definition configured (env : environ) (credentials : HTTPBasicCredentials) : Prop :=
  username credentials = BASIC_USER env /\ password credentials = BASIC_PASS env.

Definition demo_credentials : HTTPBasicCredentials :=
  {| username := "yalo-demo"; password := "change-me" |}.

Definition wrong_credentials : HTTPBasicCredentials :=
  {| username := "yalo-demo"; password := "guess" |}.

Definition records_AB : list price_record :=
  [{| sku := "A"; key := "k"; price := 2.5; isActive := true |};
   {| sku := "C"; key := "k"; price := 4; isActive := false |};
   {| sku := "A"; key := "k"; price := 3; isActive := true |}].

(* the key is the pair (a, b) *)
Definition key_is (a b : string) (k : string * string) : bool :=
  String.eqb (fst k) a && String.eqb (snd k) b.

(* a record as GET /prices lists it *)
Definition listed (r : price_record) : pyval := PDict (as_dict r).

(* a file with two rows for ABC, retail: the one under the padded id was
   written first *)
Definition file_padded : table :=
  [(" ABC::retail", record_data {| sku := "ABC"; key := "retail"; price := 1;
                                  isActive := true |});
   ("ABC::retail", record_data {| sku := "ABC"; key := "retail"; price := 2;
                                 isActive := true |});
   ("AAA::retail", record_data {| sku := "AAA"; key := "retail"; price := 3;
                                 isActive := true |})].

(* the pair GET /prices orders a record by *)
Definition record_pair (r : price_record) : string * string := (sku r, key r).

(* r1 is listed before r2, or with it: the sku of r1 is below that of r2,
   or they have the same sku and the key of r1 is at most that of r2 *)
Definition record_le (r1 r2 : price_record) : Prop :=
  str_lt (sku r1) (sku r2) \/ (sku r1 = sku r2 /\ str_le (key r1) (key r2)).

(* the file after PUT to " ABC", retail with price 1 and two PUTs to ABC,
   retail with prices 2 and 3, on the empty store *)
Definition file_padded_twice : table :=
  [(" ABC::retail", record_data {| sku := "ABC"; key := "retail"; price := 1;
                                  isActive := true |});
   ("ABC::retail", record_data {| sku := "ABC"; key := "retail"; price := 3;
                                 isActive := true |})].

(** * The runtime on sample values *)

Example float_of_str_samples :
  PyFloat.of_str "19.9" = Some 19.9%float /\
  PyFloat.of_str " 1_000.5e-1 " = Some 100.05%float /\
  PyFloat.of_str "abc" = None /\ PyFloat.of_str "1e" = None /\
  PyFloat.of_str "" = None.
Proof. repeat split; vm_compute; reflexivity. Qed.

Example py_str_samples :
  py_str (PFloat 19.9) = "19.9" /\ py_str (PFloat 1e22) = "1e+22" /\
  py_str (PInt (-12)) = "-12" /\ py_str PNone = "None" /\
  py_str (PList [PStr "a"; PBool true]) = "['a', True]" /\
  py_str (PDict [("k", PFloat 0.5)]) = "{'k': 0.5}".
Proof. repeat split; vm_compute; reflexivity. Qed.

Example strip_lower_samples :
  PyStr.strip "  a b  " = "a b" /\ PyStr.strip "   " = "" /\
  PyStr.lower " SIM " = " sim ".
Proof. repeat split; reflexivity. Qed.

(* json.loads gives back what json.dumps was given *)
Lemma json_loads_dumps : forall v : pyval, json_loads (json_dumps v) = v.
Proof.
  fix IH 1. intros [|b|n|x|s|l|d]; cbn [json_dumps json_loads]; try reflexivity.
  - f_equal. induction l as [|v l IHl]; [reflexivity|].
    cbn [map]. now rewrite IH, IHl.
  - f_equal. induction d as [|[k v] d IHd]; [reflexivity|].
    cbn [map]. now rewrite IH, IHd.
Qed.

(** * The reset loop *)

Lemma reset_prices_unfold (items : list pydict) (f : table) :
  reset_prices items f =
  try_finally_close
    (delete_all ;; for_each reset_step items ;; commit ;;
     ret (PDict [("status", PStr "ok");
                 ("count", PInt (Z.of_nat (List.length items)))]))
    (get_db f).
Proof. reflexivity. Qed.

(* the loop never touches the committed file *)
Lemma for_each_reset_file (items : list pydict) (c : connection) :
  file (snd (for_each reset_step items c)) = file c.
Proof.
  revert c. induction items as [|item items IH]; intro c; [reflexivity|].
  cbn [for_each]. unfold bind at 1. unfold reset_step at 1.
  unfold bind, lift, insert_or_replace.
  destruct (normalize_row item) as [e|d]; [reflexivity|].
  rewrite IH. reflexivity.
Qed.

(* a failing element makes the loop raise *)
Lemma for_each_reset_fails (items : list pydict) (c : connection) :
  some_fails items -> exists e, fst (for_each reset_step items c) = inl e.
Proof.
  intro H. revert c. induction H as [item items [e He]|item items _ IH]; intro c.
  - exists e. cbn [for_each]. unfold bind at 1. unfold reset_step at 1.
    unfold bind, lift. rewrite He. reflexivity.
  - cbn [for_each]. unfold bind at 1. unfold reset_step at 1.
    unfold bind, lift, insert_or_replace.
    destruct (normalize_row item) as [e|d].
    + exists e. reflexivity.
    + apply IH.
Qed.

(* when every element normalizes the loop writes the records in turn *)
Lemma for_each_reset_writes (items : list pydict) (rs : list price_record)
      (c : connection) :
  all_normalize items rs ->
  for_each reset_step items c =
  (inr tt, {| file := file c; view := write_all rs (view c) |}).
Proof.
  intro H. revert c. induction H as [|item r items rs Hr _ IH]; intro c.
  - destruct c. reflexivity.
  - cbn [for_each]. unfold bind at 1. unfold reset_step at 1.
    unfold bind, lift, insert_or_replace. rewrite Hr.
    rewrite IH. reflexivity.
Qed.

Lemma some_fails_or_all_normalize (items : list pydict) :
  some_fails items \/ exists rs, all_normalize items rs.
Proof.
  induction items as [|item items [IH|[rs IH]]].
  - right. exists []. constructor.
  - left. now apply Exists_cons_tl.
  - destruct (normalize_row item) as [e|r] eqn:E.
    + left. apply Exists_cons_hd. now exists e.
    + right. exists (r :: rs). now constructor.
Qed.

(* normalize_row raises ValueError, TypeError or OverflowError only *)
Lemma normalize_row_not_http (row : pydict) (code : Z) (detail : string) :
  normalize_row row <> inl (HTTPException code detail).
Proof.
  unfold normalize_row.
  destruct (_ || _); [discriminate|].
  destruct (get_default row "price" PNone) as [|b|n|x|s|l|d]; try discriminate;
    destruct (String.eqb _ _); try discriminate; cbn [py_float]; try discriminate.
  - destruct (PyFloat.of_int n); discriminate.
  - destruct (PyFloat.of_str s); discriminate.
Qed.

(* an exception leaves reset_prices before the commit *)
Lemma reset_prices_fails (items : list pydict) (f : table) :
  some_fails items -> exists e, reset_prices items f = (inl e, f).
Proof.
  intro H. rewrite reset_prices_unfold.
  destruct (for_each_reset_fails items {| file := f; view := [] |} H) as [e He].
  pose proof (for_each_reset_file items {| file := f; view := [] |}) as Hf.
  exists e. unfold try_finally_close, get_db, connect, delete_all.
  unfold bind at 1. cbn [file view]. unfold bind at 1.
  destruct (for_each reset_step items {| file := f; view := [] |}) as [r c'].
  cbn [fst snd file] in He, Hf. subst r. unfold close. now rewrite Hf.
Qed.

(** * C1: reset is all-or-nothing *)

(** C1. When some element of the batch fails normalization, reset_prices
    raises and the file afterwards is the file before the call: the DELETE
    and the rows written before the failing element were never committed,
    so no row of the call is in the file and every row that was there
    still is. *)
Theorem reset_prices_all_or_nothing (items : list pydict) (f : table) :
  some_fails items ->
  exists e,
    reset_prices items f = (inl e, f) /\
    forall r : row, In r (snd (reset_prices items f)) <-> In r f.
Proof.
  intro H. destruct (reset_prices_fails items f H) as [e He].
  exists e. split; [exact He|]. rewrite He. reflexivity.
Qed.

Lemma reset_prices_all_or_nothing_witness :
  some_fails [item_A; item_blank] /\
  exists e,
    reset_prices [item_A; item_blank] [(record_id record_B, record_data record_B)]
    = (inl e, [(record_id record_B, record_data record_B)]) /\
    forall r : row,
      In r (snd (reset_prices [item_A; item_blank]
                              [(record_id record_B, record_data record_B)]))
      <-> In r [(record_id record_B, record_data record_B)].
Proof.
  assert (H : some_fails [item_A; item_blank]).
  { apply Exists_cons_tl, Exists_cons_hd.
    exists (ValueError "sku and key are required"). reflexivity. }
  split; [exact H|].
  exact (reset_prices_all_or_nothing [item_A; item_blank]
           [(record_id record_B, record_data record_B)] H).
Defined.

(* when every element normalizes, reset_prices replaces the file by the
   rows of the batch and answers with the length of the batch *)
Lemma reset_prices_writes (items : list pydict) (rs : list price_record) (f : table) :
  all_normalize items rs ->
  reset_prices items f =
  (inr (PDict [("status", PStr "ok");
               ("count", PInt (Z.of_nat (List.length items)))]),
   write_all rs []).
Proof.
  intro H. rewrite reset_prices_unfold.
  unfold try_finally_close, get_db, connect, delete_all.
  unfold bind at 1. cbn [file view]. unfold bind at 1.
  rewrite (for_each_reset_writes items rs _ H). reflexivity.
Qed.

(** * C3: the status of a reset with an invalid element *)

(* the sibling handler: upsert_price answers 400 to a ValueError of the
   normalizer *)
Lemma upsert_price_validation_status (sku0 key0 : string) (payload : pydict)
      (f : table) (msg : string) :
  normalize_row (dict_set (dict_set payload "sku" (PStr sku0)) "key" (PStr key0))
  = inl (ValueError msg) ->
  upsert_price sku0 key0 payload f = (inl (HTTPException 400 msg), f).
Proof. intro H. unfold upsert_price. rewrite H. reflexivity. Qed.

(** C3 (as the code behaves). reset_prices lets the exception of the
    normalizer through: a batch with an element that fails normalization
    is answered with status 500, where the claim asks for 400. *)
Theorem reset_prices_failure_status (items : list pydict) (f : table) :
  some_fails items ->
  status_of (fst (reset_prices items f)) = 500.
Proof.
  intro H. rewrite reset_prices_unfold.
  destruct (for_each_reset_fails items {| file := f; view := [] |} H) as [e He].
  unfold try_finally_close, get_db, connect, delete_all.
  unfold bind at 1. cbn [file view]. unfold bind at 1.
  assert (Hn : forall code detail, e <> HTTPException code detail).
  { clear - H He. revert He. generalize {| file := f; view := [] |}.
    induction H as [item items [e' He']|item items _ IH]; intros c He.
    - cbn [for_each] in He. unfold bind at 1 in He. unfold reset_step at 1 in He.
      unfold bind, lift in He. rewrite He' in He. cbn in He.
      injection He as <-. intros code detail ->.
      now apply (normalize_row_not_http item code detail).
    - cbn [for_each] in He. unfold bind at 1 in He. unfold reset_step at 1 in He.
      unfold bind, lift, insert_or_replace in He.
      destruct (normalize_row item) as [e'|d] eqn:E.
      + cbn in He. injection He as <-. intros code detail ->.
        now apply (normalize_row_not_http item code detail).
      + eapply IH. exact He. }
  destruct (for_each reset_step items {| file := f; view := [] |}) as [r c'].
  cbn [fst] in He. subst r. cbn.
  destruct e; try reflexivity. now destruct (Hn status_code detail).
Qed.

Lemma reset_prices_failure_status_witness :
  some_fails [item_blank] /\ status_of (fst (reset_prices [item_blank] [])) = 500.
Proof.
  assert (H : some_fails [item_blank]).
  { apply Exists_cons_hd.
    exists (ValueError "sku and key are required"). reflexivity. }
  split; [exact H|].
  exact (reset_prices_failure_status [item_blank] [] H).
Defined.

(** * C4: the count reset_prices returns *)

Lemma replace_row_ids (pid : string) (data : json) (t : table) :
  map fst (replace_row pid data t) = (filter (not_in [pid]) (map fst t) ++ [pid])%list.
Proof.
  unfold replace_row. rewrite map_app. cbn [map fst]. f_equal.
  induction t as [|[i d] t IH]; [reflexivity|].
  cbn [filter map fst].
  replace (not_in [pid] i) with (negb (has_id pid (i, d)))
    by (unfold not_in, has_id; cbn [fst existsb]; now rewrite orb_false_r).
  destruct (negb (has_id pid (i, d))); cbn [map fst]; now rewrite IH.
Qed.

Lemma existsb_eqb_In (i : string) (ids : list string) :
  existsb (String.eqb i) ids = true <-> In i ids.
Proof.
  rewrite existsb_exists. split.
  - intros [x [Hx E]]. apply String.eqb_eq in E. now subst.
  - intro H. exists i. split; [exact H|apply String.eqb_refl].
Qed.

Lemma not_in_cons (pid i : string) (ids : list string) :
  not_in (pid :: ids) i = negb (String.eqb i pid) && not_in ids i.
Proof. unfold not_in. cbn [existsb]. apply negb_orb. Qed.

Lemma filter_not_in_cons (pid : string) (ids l : list string) :
  filter (not_in ids) (filter (not_in [pid]) l) = filter (not_in (pid :: ids)) l.
Proof.
  induction l as [|i l IH]; [reflexivity|].
  cbn [filter]. rewrite (not_in_cons pid i ids), (not_in_cons pid i []).
  unfold not_in at 2. cbn [existsb negb]. rewrite andb_true_r.
  destruct (String.eqb i pid); cbn [negb andb filter].
  - exact IH.
  - destruct (not_in ids i); now rewrite IH.
Qed.

(* the ids after a batch: the old ids the batch does not write, then the
   ids of the batch, each once, in the order of their last occurrence *)
Lemma write_all_ids (rs : list price_record) (t : table) :
  map fst (write_all rs t) =
  (filter (not_in (map record_id rs)) (map fst t)
   ++ nodup string_dec (map record_id rs))%list.
Proof.
  revert t. induction rs as [|r rs IH]; intro t.
  - cbn [write_all fold_left map nodup]. rewrite app_nil_r.
    induction (map fst t) as [|i l IHl]; [reflexivity|].
    cbn [filter]. unfold not_in at 1. cbn [existsb negb]. now rewrite <- IHl.
  - change (write_all (r :: rs) t)
      with (write_all rs (replace_row (record_id r) (record_data r) t)).
    rewrite IH, replace_row_ids, filter_app, filter_not_in_cons.
    rewrite <- app_assoc. f_equal. cbn [map nodup filter].
    destruct (in_dec string_dec (record_id r) (map record_id rs)) as [Hin|Hout].
    + apply existsb_eqb_In in Hin. unfold not_in. rewrite Hin. reflexivity.
    + assert (E : existsb (String.eqb (record_id r)) (map record_id rs) = false).
      { destruct (existsb _ _) eqn:E; [|reflexivity].
        apply existsb_eqb_In in E. contradiction. }
      unfold not_in. rewrite E. reflexivity.
Qed.

Lemma nodup_length_le (l : list string) :
  (List.length (nodup string_dec l) <= List.length l)%nat.
Proof.
  induction l as [|x l IH]; [apply le_n|].
  cbn [nodup List.length]. destruct (in_dec string_dec x l); cbn [List.length]; lia.
Qed.

Lemma nodup_length_eq (l : list string) :
  List.length (nodup string_dec l) = List.length l <-> NoDup l.
Proof.
  split.
  - induction l as [|x l IH]; [constructor|].
    cbn [nodup List.length]. pose proof (nodup_length_le l) as Hle.
    destruct (in_dec string_dec x l) as [Hin|Hout]; cbn [List.length]; intro E.
    + lia.
    + constructor; [exact Hout|apply IH; lia].
  - intro H. now rewrite (nodup_fixed_point string_dec H).
Qed.

(** C4 (amended). When every element normalizes, reset_prices returns the
    length of the batch, one upsert being executed per element; the file
    then holds one row per distinct id of the batch, so it never holds
    more rows than the count, and holds exactly that many when, and only
    when, the ids of the batch are pairwise distinct. *)
Theorem reset_prices_count (items : list pydict) (rs : list price_record)
        (f : table) :
  all_normalize items rs ->
  exists f',
    reset_prices items f =
    (inr (PDict [("status", PStr "ok");
                 ("count", PInt (Z.of_nat (List.length items)))]), f') /\
    map fst f' = nodup string_dec (map record_id rs) /\
    (List.length f' <= List.length items)%nat /\
    (List.length f' = List.length items <-> NoDup (map record_id rs)).
Proof.
  intro H. exists (write_all rs []). split; [now apply reset_prices_writes|].
  pose proof (write_all_ids rs []) as Hids. cbn [map filter app] in Hids.
  split; [exact Hids|].
  assert (Hlen : List.length (write_all rs []) =
                 List.length (nodup string_dec (map record_id rs))).
  { now rewrite <- Hids, length_map. }
  assert (Hn : List.length items = List.length (map record_id rs)).
  { rewrite length_map. exact (Forall2_length H). }
  rewrite Hlen, Hn. split; [apply nodup_length_le|apply nodup_length_eq].
Qed.

Lemma all_normalize_A_A' : all_normalize [item_A; item_A'] [record_A; record_A'].
Proof. repeat constructor. Qed.

Lemma reset_prices_count_witness :
  all_normalize [item_A; item_A'] [record_A; record_A'] /\
  exists f',
    reset_prices [item_A; item_A'] [] =
    (inr (PDict [("status", PStr "ok"); ("count", PInt 2)]), f') /\
    map fst f' = ["A::k"] /\
    (List.length f' <= 2)%nat /\
    (List.length f' = 2%nat <-> NoDup ["A::k"; "A::k"]).
Proof.
  split; [exact all_normalize_A_A'|].
  exact (reset_prices_count [item_A; item_A'] [record_A; record_A'] []
           all_normalize_A_A').
Defined.

(** C4 (as stated) fails: two elements with the same sku and key both
    normalize; the count returned is 2, the length of the batch, while the
    file holds a single row. *)
Lemma reset_prices_count_counterexample :
  all_normalize [item_A; item_A'] [record_A; record_A'] /\
  reset_prices [item_A; item_A'] [] =
  (inr (PDict [("status", PStr "ok"); ("count", PInt 2)]),
   [(record_id record_A', record_data record_A')]) /\
  List.length [(record_id record_A', record_data record_A')] = 1%nat.
Proof.
  split; [exact all_normalize_A_A'|]. split; reflexivity.
Qed.

(** * The order on (sku, key) pairs *)

Lemma ascii_compare_refl (c : ascii) : Ascii.compare c c = Eq.
Proof. apply N.compare_refl. Qed.

Lemma string_compare_refl (s : string) : String.compare s s = Eq.
Proof.
  induction s as [|c s IH]; [reflexivity|].
  cbn [String.compare]. now rewrite ascii_compare_refl.
Qed.

Lemma ascii_compare_lt_trans (a b c : ascii) :
  Ascii.compare a b = Lt -> Ascii.compare b c = Lt -> Ascii.compare a c = Lt.
Proof.
  unfold Ascii.compare. rewrite !N.compare_lt_iff. apply N.lt_trans.
Qed.

Lemma string_compare_lt_trans (a b c : string) :
  str_lt a b -> str_lt b c -> str_lt a c.
Proof.
  unfold str_lt. revert b c.
  induction a as [|x a IH]; intros [|y b] [|z c]; cbn [String.compare];
    try discriminate; try reflexivity.
  destruct (Ascii.compare x y) eqn:Exy; try discriminate;
    destruct (Ascii.compare y z) eqn:Eyz; try discriminate; intros H1 H2.
  - apply Ascii.compare_eq_iff in Exy, Eyz. subst.
    rewrite ascii_compare_refl. now apply (IH b).
  - apply Ascii.compare_eq_iff in Exy. subst. now rewrite Eyz.
  - apply Ascii.compare_eq_iff in Eyz. subst. now rewrite Exy.
  - now rewrite (ascii_compare_lt_trans x y z Exy Eyz).
Qed.

Lemma str_lt_irrefl (a : string) : ~ str_lt a a.
Proof. unfold str_lt. now rewrite string_compare_refl. Qed.

Lemma str_lt_asym (a b : string) : str_lt a b -> ~ str_lt b a.
Proof.
  unfold str_lt. intros H1 H2. rewrite String.compare_antisym, H2 in H1.
  discriminate.
Qed.

Lemma str_le_cases (a b : string) : str_le a b <-> str_lt a b \/ a = b.
Proof.
  unfold str_le, str_lt. split.
  - destruct (String.compare a b) eqn:E; intro H.
    + right. now apply String.compare_eq_iff.
    + now left.
    + now destruct H.
  - intros [H| ->]; [now rewrite H|now rewrite string_compare_refl].
Qed.

Lemma str_le_trans (a b c : string) : str_le a b -> str_le b c -> str_le a c.
Proof.
  rewrite !str_le_cases. intros [H1| ->] [H2| ->]; auto.
  left. now apply (string_compare_lt_trans a b c).
Qed.

Lemma str_le_antisym (a b : string) : str_le a b -> str_le b a -> a = b.
Proof.
  rewrite !str_le_cases. intros [H1| ->] [H2|H2]; auto.
  now destruct (str_lt_asym a b).
Qed.

Lemma lex_le_trans (x y z : string * string) :
  lex_le x y -> lex_le y z -> lex_le x z.
Proof.
  unfold lex_le. intros [H1|[E1 H1]] [H2|[E2 H2]].
  - left. now apply (string_compare_lt_trans _ (fst y)).
  - left. now rewrite <- E2.
  - left. now rewrite E1.
  - right. split; [congruence|now apply (str_le_trans _ (snd y))].
Qed.

Lemma lex_le_antisym (x y : string * string) : lex_le x y -> lex_le y x -> x = y.
Proof.
  destruct x as [a b], y as [c d]. unfold lex_le. cbn [fst snd].
  intros [H1|[E1 H1]] [H2|[E2 H2]].
  - now destruct (str_lt_asym a c).
  - subst. now destruct (str_lt_irrefl a).
  - subst. now destruct (str_lt_irrefl c).
  - subst. f_equal. now apply str_le_antisym.
Qed.

(* the comparison the sort makes: y < x fails exactly when x <= y *)
Lemma tuple_lt_false (x y : string * string) :
  tuple_lt y x = false <-> lex_le x y.
Proof.
  unfold tuple_lt, lex_le, String.ltb, str_lt, str_le.
  destruct (String.eqb_spec (fst y) (fst x)) as [E|N].
  - rewrite E, string_compare_refl, (String.compare_antisym (snd x) (snd y)).
    destruct (String.compare (snd y) (snd x)); cbn [CompOpp].
    + split; [intros _; right; split; [reflexivity|discriminate]|reflexivity].
    + split; [discriminate|]. intros [H|[_ H]]; [discriminate|now destruct H].
    + split; [intros _; right; split; [reflexivity|discriminate]|reflexivity].
  - rewrite (String.compare_antisym (fst x) (fst y)).
    destruct (String.compare (fst y) (fst x)) eqn:C; cbn [CompOpp].
    + apply String.compare_eq_iff in C. contradiction.
    + split; [discriminate|]. intros [H|[H _]]; [discriminate|].
      now destruct N.
    + split; [now left|reflexivity].
Qed.

Lemma tuple_lt_true (x y : string * string) :
  tuple_lt y x = true -> lex_le y x.
Proof.
  intro H. destruct (tuple_lt x y) eqn:E; [|now apply tuple_lt_false].
  exfalso. revert H E. unfold tuple_lt, String.ltb.
  rewrite (String.eqb_sym (fst x) (fst y)).
  destruct (String.eqb (fst y) (fst x)).
  - rewrite (String.compare_antisym (snd x) (snd y)).
    destruct (String.compare (snd y) (snd x)); cbn [CompOpp]; discriminate.
  - rewrite (String.compare_antisym (fst x) (fst y)).
    destruct (String.compare (fst y) (fst x)); cbn [CompOpp]; discriminate.
Qed.

(** * The sort of list_prices *)

Lemma lex_le_refl (x : string * string) : lex_le x x.
Proof.
  right. split; [reflexivity|]. unfold str_le. now rewrite string_compare_refl.
Qed.

Lemma insert_perm (x : keyed) (l : list keyed) : Permutation (x :: l) (insert x l).
Proof.
  induction l as [|y l IH]; [reflexivity|].
  cbn [insert]. destruct (tuple_lt (fst y) (fst x)); [|reflexivity].
  rewrite perm_swap. now apply perm_skip.
Qed.

Lemma sort_perm (l : list keyed) : Permutation l (sort l).
Proof.
  induction l as [|x l IH]; [reflexivity|].
  cbn [sort]. rewrite <- insert_perm. now apply perm_skip.
Qed.

Lemma insert_sorted (x : keyed) (l : list keyed) :
  Sorted keyed_le l -> Sorted keyed_le (insert x l).
Proof.
  induction l as [|y l IH]; intro H.
  - repeat constructor.
  - cbn [insert]. destruct (tuple_lt (fst y) (fst x)) eqn:E.
    + apply Sorted_inv in H as [Hl Hy]. constructor; [now apply IH|].
      destruct l as [|z l]; cbn [insert].
      * constructor. now apply tuple_lt_true.
      * destruct (tuple_lt (fst z) (fst x)).
        -- constructor. now inversion Hy.
        -- constructor. now apply tuple_lt_true.
    + constructor; [exact H|]. constructor. now apply tuple_lt_false.
Qed.

Lemma sort_sorted (l : list keyed) : StronglySorted keyed_le (sort l).
Proof.
  apply Sorted_StronglySorted.
  - intros x y z. apply lex_le_trans.
  - induction l as [|x l IH]; [constructor|]. now apply insert_sorted.
Qed.

(* two sorted lists of keys with the same elements are the same list *)
Lemma sorted_keys_unique (l1 l2 : list (string * string)) :
  StronglySorted lex_le l1 -> StronglySorted lex_le l2 ->
  Permutation l1 l2 -> l1 = l2.
Proof.
  revert l2. induction l1 as [|a l1 IH]; intros l2 H1 H2 P.
  - now apply Permutation_nil in P.
  - destruct l2 as [|b l2].
    + apply Permutation_sym, Permutation_nil in P. discriminate.
    + apply StronglySorted_inv in H1 as [H1 Ha].
      apply StronglySorted_inv in H2 as [H2 Hb].
      assert (E : a = b).
      { apply lex_le_antisym.
        - assert (I : In b (a :: l1))
            by (apply (Permutation_in b (Permutation_sym P)); now left).
          destruct I as [<-|I]; [apply lex_le_refl|].
          rewrite Forall_forall in Ha. now apply Ha.
        - assert (I : In a (b :: l2))
            by (apply (Permutation_in a P); now left).
          destruct I as [<-|I]; [apply lex_le_refl|].
          rewrite Forall_forall in Hb. now apply Hb. }
      subst b. f_equal. apply IH; try assumption.
      now apply Permutation_cons_inv with a.
Qed.

Lemma decorate_rows (rows : list pyval) (l : list keyed) :
  decorate rows = Some l -> map snd l = rows /\ well_keyed l.
Proof.
  revert l. induction rows as [|x rows IH]; intros l H; cbn [decorate] in H.
  - injection H as <-. split; [reflexivity|constructor].
  - destruct (sort_key x) as [k|] eqn:Ek; [|discriminate].
    destruct (decorate rows) as [l'|]; [|discriminate].
    injection H as <-. destruct (IH l' eq_refl) as [E W].
    split; [cbn [map snd]; now rewrite E|now constructor].
Qed.

Lemma decorate_defined (rows : list pyval) :
  Forall (fun x => exists k, sort_key x = Some k) rows ->
  exists l, decorate rows = Some l.
Proof.
  induction 1 as [|x rows [k Hk] _ [l IH]].
  - now exists [].
  - exists ((k, x) :: l). cbn [decorate]. now rewrite Hk, IH.
Qed.

Lemma well_keyed_sorted_rows (l : list keyed) :
  well_keyed l -> StronglySorted keyed_le l -> StronglySorted row_le (map snd l).
Proof.
  intros W S. induction S as [|x l S IH H]; [constructor|].
  apply Forall_cons_iff in W as [Wx W]. cbn [map]. constructor; [now apply IH|].
  rewrite Forall_forall in *. intros y Hy.
  apply in_map_iff in Hy as [p [<- Hp]].
  exists (fst x), (fst p). repeat split; [exact Wx|now apply W|now apply H].
Qed.

Lemma well_keyed_keys (l : list keyed) :
  well_keyed l -> map sort_key (map snd l) = map Some (map fst l).
Proof.
  induction 1 as [|p l Hp _ IH]; [reflexivity|].
  cbn [map]. now rewrite Hp, IH.
Qed.

Lemma list_prices_unfold (f : table) :
  list_prices f = (sort_rows (decoded f), f).
Proof. reflexivity. Qed.

Lemma record_decoded (d : price_record) :
  json_loads (record_data d) = PDict (as_dict d).
Proof. reflexivity. Qed.

Lemma record_sort_key (d : price_record) :
  sort_key (PDict (as_dict d)) = Some (sku d, key d).
Proof. reflexivity. Qed.

Lemma holds_records_keys (f : table) :
  holds_records f -> Forall (fun x => exists k, sort_key x = Some k) (decoded f).
Proof.
  unfold decoded. induction 1 as [|r f [d Hd] _ IH]; [constructor|].
  cbn [map]. constructor; [|exact IH].
  exists (sku d, key d). now rewrite Hd, record_decoded, record_sort_key.
Qed.

(* what sort_rows returns on rows that all have keys *)
Lemma sort_rows_sorted (rows : list pyval) :
  Forall (fun x => exists k, sort_key x = Some k) rows ->
  exists l, decorate rows = Some l /\ sort_rows rows = Some (map snd (sort l)) /\
            Permutation rows (map snd (sort l)) /\
            StronglySorted row_le (map snd (sort l)) /\
            map sort_key (map snd (sort l)) = map Some (map fst (sort l)).
Proof.
  intro H. destruct (decorate_defined rows H) as [l Hl].
  destruct (decorate_rows rows l Hl) as [E W].
  assert (W' : well_keyed (sort l)).
  { unfold well_keyed in *. rewrite Forall_forall in *. intros p Hp.
    apply W. now apply (Permutation_in p (Permutation_sym (sort_perm l))). }
  exists l. split; [exact Hl|]. split; [unfold sort_rows; now rewrite Hl|].
  split; [rewrite <- E; apply Permutation_map, sort_perm|].
  split; [apply well_keyed_sorted_rows; [exact W'|apply sort_sorted]|].
  now apply well_keyed_keys.
Qed.

(** * C5: list_prices *)

(* what a file of records decodes to *)
Lemma holds_records_listed (f : table) :
  holds_records f -> exists ds, decoded f = map listed ds.
Proof.
  unfold decoded. induction 1 as [|r f [d Hd] _ [ds IH]].
  - now exists [].
  - exists (d :: ds). cbn [map]. now rewrite Hd, record_decoded, IH.
Qed.

(* rows in the order of the sort are records in the order of their own
   sku and key *)
Lemma listed_sorted (rs : list price_record) :
  StronglySorted row_le (map listed rs) -> StronglySorted record_le rs.
Proof.
  induction rs as [|r rs IH]; intro S; [constructor|].
  cbn [map] in S. apply StronglySorted_inv in S as [S F].
  constructor; [now apply IH|].
  rewrite Forall_forall in *. intros r' Hr'.
  destruct (F (listed r') (in_map listed rs r' Hr')) as [a [b [Ea [Eb L]]]].
  unfold listed in Ea, Eb. rewrite record_sort_key in Ea, Eb.
  injection Ea as <-. injection Eb as <-. exact L.
Qed.

Lemma record_pairs_sorted (rs : list price_record) :
  StronglySorted record_le rs -> StronglySorted lex_le (map record_pair rs).
Proof.
  induction 1 as [|r rs _ IH F]; cbn [map]; constructor; [exact IH|].
  rewrite Forall_forall in *. intros k Hk.
  apply in_map_iff in Hk as [r' [<- Hr']]. exact (F r' Hr').
Qed.

Lemma listed_pairs (rs rs' : list price_record) :
  Permutation (map listed rs) (map listed rs') ->
  Permutation (map record_pair rs) (map record_pair rs').
Proof.
  intro P.
  apply (Permutation_map
           (fun x => match sort_key x with Some k => k | None => ("", "") end)) in P.
  now rewrite !map_map in P.
Qed.

(* the listing of a file of records: its records, in order *)
Lemma list_prices_records (f : table) :
  holds_records f ->
  exists rs,
    list_prices f = (Some (map listed rs), f) /\
    Permutation (decoded f) (map listed rs) /\
    StronglySorted record_le rs.
Proof.
  intro H. destruct (holds_records_listed f H) as [ds Hd].
  destruct (sort_rows_sorted (decoded f) (holds_records_keys f H))
    as [l [_ [Hs [Hp [Hsorted _]]]]].
  assert (Q : Permutation (map snd (sort l)) (map listed ds))
    by (rewrite <- Hd; now apply Permutation_sym).
  destruct (Permutation_map_inv listed ds Q) as [rs [E _]].
  rewrite E in Hs, Hp, Hsorted. exists rs.
  split; [now rewrite list_prices_unfold, Hs|].
  split; [exact Hp|now apply listed_sorted].
Qed.

(** C5. On a file whose rows hold records, list_prices returns records
    rs, each as the dict it was stored as: they are the decoded rows of
    the file, all of them and nothing else; they are in ascending order of
    their own sku and key, that is, each record comes before every later
    one in the lexicographic order on (sku, key), strings compared by code
    point; and the file is left as it is. The sequence of (sku, key) pairs
    listed is the same for every order of the rows in the file. *)
Theorem list_prices_sorted (f : table) :
  holds_records f ->
  exists rs,
    list_prices f = (Some (map listed rs), f) /\
    Permutation (decoded f) (map listed rs) /\
    StronglySorted record_le rs /\
    forall f', Permutation f f' ->
      exists rs', list_prices f' = (Some (map listed rs'), f') /\
                  map record_pair rs' = map record_pair rs.
Proof.
  intro H. destruct (list_prices_records f H) as [rs [L [P S]]].
  exists rs. split; [exact L|]. split; [exact P|]. split; [exact S|].
  intros f' Pf.
  assert (H' : holds_records f').
  { unfold holds_records in *. rewrite Forall_forall in *. intros r Hr.
    apply H. now apply (Permutation_in r (Permutation_sym Pf)). }
  destruct (list_prices_records f' H') as [rs' [L' [P' S']]].
  exists rs'. split; [exact L'|].
  apply sorted_keys_unique; try now apply record_pairs_sorted.
  apply listed_pairs. rewrite <- P, <- P'. unfold decoded.
  now apply Permutation_map, Permutation_map, Permutation_sym.
Qed.

Lemma holds_records_BA : holds_records file_BA.
Proof.
  repeat constructor; [now exists record_B|now exists record_A].
Qed.

(* B was stored before A, and A is listed before B *)
Lemma list_prices_sorted_witness :
  holds_records file_BA /\
  exists rs,
    list_prices file_BA = (Some (map listed rs), file_BA) /\
    Permutation (decoded file_BA) (map listed rs) /\
    StronglySorted record_le rs /\
    forall f', Permutation file_BA f' ->
      exists rs', list_prices f' = (Some (map listed rs'), f') /\
                  map record_pair rs' = map record_pair rs.
Proof.
  exact (conj holds_records_BA (list_prices_sorted file_BA holds_records_BA)).
Defined.

(* the listing of that file: A before B, though B was stored first *)
Example list_prices_BA :
  list_prices file_BA
  = (Some [PDict (as_dict record_A); PDict (as_dict record_B)], file_BA).
Proof. reflexivity. Qed.

(** * The normalizer, field by field *)

Lemma dict_get_set_same (d : pydict) (k : string) (v : pyval) :
  dict_get (dict_set d k v) k = Some v.
Proof.
  induction d as [|[k' v'] d IH]; cbn [dict_set dict_get].
  - now rewrite String.eqb_refl.
  - destruct (String.eqb k k') eqn:E; cbn [dict_get].
    + now rewrite String.eqb_refl.
    + now rewrite E.
Qed.

Lemma dict_get_set_other (d : pydict) (k k' : string) (v : pyval) :
  k' <> k -> dict_get (dict_set d k v) k' = dict_get d k'.
Proof.
  intro N. apply String.eqb_neq in N.
  induction d as [|[k0 v0] d IH]; cbn [dict_set dict_get].
  - now rewrite N.
  - destruct (String.eqb k k0) eqn:E; cbn [dict_get].
    + apply String.eqb_eq in E. subst k0. now rewrite N.
    + now rewrite IH.
Qed.

Lemma forced_sku (sku0 key0 : string) (payload : pydict) (dflt : pyval) :
  get_default (forced sku0 key0 payload) "sku" dflt = PStr sku0.
Proof.
  unfold get_default, forced.
  rewrite dict_get_set_other by discriminate. now rewrite dict_get_set_same.
Qed.

Lemma forced_key (sku0 key0 : string) (payload : pydict) (dflt : pyval) :
  get_default (forced sku0 key0 payload) "key" dflt = PStr key0.
Proof. unfold get_default, forced. now rewrite dict_get_set_same. Qed.

Lemma forced_other (sku0 key0 k : string) (payload : pydict) (dflt : pyval) :
  k <> "sku" -> k <> "key" ->
  get_default (forced sku0 key0 payload) k dflt = get_default payload k dflt.
Proof.
  intros N1 N2. unfold get_default, forced.
  now rewrite !dict_get_set_other by assumption.
Qed.

(* the four fields of a record that normalize_row returns *)
Lemma normalize_row_fields (row : pydict) (r : price_record) :
  normalize_row row = inr r ->
  sku r = PyStr.strip (py_str (get_default row "sku" (PStr ""))) /\
  key r = PyStr.strip (py_str (get_default row "key" (PStr ""))) /\
  py_float (get_default row "price" PNone) = inr (price r) /\
  isActive r = normalize_bool (get_default row "isActive" (PBool true)).
Proof.
  unfold normalize_row.
  destruct (_ || _); [discriminate|].
  destruct (get_default row "price" PNone) as [|b|n|x|s|l|d]; try discriminate;
    destruct (String.eqb _ _); try discriminate;
    destruct (py_float _) as [e|y]; try discriminate;
    intro H; injection H as <-; now cbn [sku key price isActive].
Qed.

(** * upsert_price, case by case *)

Lemma upsert_price_ok (sku0 key0 : string) (payload : pydict) (f : table)
      (d : price_record) :
  normalize_row (forced sku0 key0 payload) = inr d ->
  upsert_price sku0 key0 payload f =
  (inr (PDict [("status", PStr "ok"); ("id", PStr (make_id sku0 key0));
               ("price", PDict (as_dict d))]),
   replace_row (make_id sku0 key0) (record_data d) f).
Proof. intro H. unfold upsert_price. fold (forced sku0 key0 payload). now rewrite H. Qed.

Lemma upsert_price_raises (sku0 key0 : string) (payload : pydict) (f : table)
      (e : exn) :
  normalize_row (forced sku0 key0 payload) = inl e ->
  snd (upsert_price sku0 key0 payload f) = f.
Proof.
  intro H. unfold upsert_price. fold (forced sku0 key0 payload). rewrite H.
  now destruct e.
Qed.

Lemma upsert_price_returns (sku0 key0 : string) (payload : pydict) (f f' : table)
      (body : pyval) :
  upsert_price sku0 key0 payload f = (inr body, f') ->
  exists d,
    normalize_row (forced sku0 key0 payload) = inr d /\
    body = PDict [("status", PStr "ok"); ("id", PStr (make_id sku0 key0));
                  ("price", PDict (as_dict d))] /\
    f' = replace_row (make_id sku0 key0) (record_data d) f.
Proof.
  destruct (normalize_row (forced sku0 key0 payload)) as [e|d] eqn:E.
  - unfold upsert_price. fold (forced sku0 key0 payload). rewrite E.
    destruct e; discriminate.
  - rewrite (upsert_price_ok _ _ _ _ _ E). intro H. injection H as <- <-.
    now exists d.
Qed.

(** * C9: the response of PUT *)

(** C9. Whenever PUT /prices/{sku}/{key} returns, the record it stores and
    returns is the normalized body with the path segments forced into it:
    its sku and key are the path's, trimmed, whatever sku and key the body
    carried; the response is status ok, the id sku::key made of the path
    segments, and that record. With path ABC/retail and body
    {"price": 19.9} the response is id ABC::retail and the record
    ABC, retail, 19.9, active. *)
Theorem upsert_price_response :
  (forall (sku0 key0 : string) (payload : pydict) (f f' : table) (body : pyval),
      upsert_price sku0 key0 payload f = (inr body, f') ->
      exists r,
        normalize_row (forced sku0 key0 payload) = inr r /\
        sku r = PyStr.strip sku0 /\ key r = PyStr.strip key0 /\
        body = PDict [("status", PStr "ok"); ("id", PStr (sku0 ++ "::" ++ key0));
                      ("price", PDict (as_dict r))]) /\
  (forall f : table,
      fst (upsert_price "ABC" "retail" [("price", PFloat 19.9)] f)
      = inr (PDict [("status", PStr "ok"); ("id", PStr "ABC::retail");
                    ("price", PDict [("sku", PStr "ABC"); ("key", PStr "retail");
                                     ("price", PFloat 19.9);
                                     ("isActive", PBool true)])])).
Proof.
  split.
  - intros sku0 key0 payload f f' body H.
    destruct (upsert_price_returns _ _ _ _ _ _ H) as [d [Hd [Hb _]]].
    exists d. split; [exact Hd|].
    destruct (normalize_row_fields _ _ Hd) as [Hs [Hk _]].
    rewrite forced_sku in Hs. rewrite forced_key in Hk.
    now repeat split.
  - intro f.
    assert (E : normalize_row (forced "ABC" "retail" [("price", PFloat 19.9)])
                = inr {| sku := "ABC"; key := "retail"; price := 19.9;
                         isActive := true |}) by (vm_compute; reflexivity).
    now rewrite (upsert_price_ok _ _ _ f _ E).
Qed.

Lemma upsert_price_response_witness :
  exists r,
    normalize_row (forced " ABC" "retail" body_zz) = inr r /\
    sku r = PyStr.strip " ABC" /\ key r = PyStr.strip "retail" /\
    PDict [("status", PStr "ok"); ("id", PStr " ABC::retail");
           ("price", PDict (as_dict {| sku := "ABC"; key := "retail";
                                       price := 1000; isActive := true |}))]
    = PDict [("status", PStr "ok"); ("id", PStr (" ABC" ++ "::" ++ "retail"));
             ("price", PDict (as_dict r))].
Proof.
  refine (proj1 upsert_price_response " ABC" "retail" body_zz [] _ _ _).
  vm_compute. reflexivity.
Defined.

(** * C10: upsert leaves the other rows alone *)

Lemma filter_twice {A : Type} (p : A -> bool) (l : list A) :
  filter p (filter p l) = filter p l.
Proof.
  induction l as [|x l IH]; [reflexivity|].
  cbn [filter]. destruct (p x) eqn:E; cbn [filter]; [now rewrite E, IH|exact IH].
Qed.

Lemma filter_complement {A : Type} (p : A -> bool) (l : list A) :
  filter p (filter (fun x => negb (p x)) l) = [].
Proof.
  induction l as [|x l IH]; [reflexivity|].
  cbn [filter]. destruct (p x) eqn:E; cbn [negb filter]; [exact IH|now rewrite E].
Qed.

Lemma replace_row_others (pid : string) (data : json) (t : table) :
  filter (other_than pid) (replace_row pid data t) = filter (other_than pid) t.
Proof.
  unfold replace_row. change (fun r => negb (has_id pid r)) with (other_than pid).
  rewrite filter_app, filter_twice. cbn [filter].
  unfold other_than at 2, has_id. cbn [fst]. rewrite String.eqb_refl. cbn [negb].
  apply app_nil_r.
Qed.

Lemma replace_row_same (pid : string) (data : json) (t : table) :
  filter (has_id pid) (replace_row pid data t) = [(pid, data)].
Proof.
  unfold replace_row. rewrite filter_app, filter_complement. cbn [filter app].
  unfold has_id. cbn [fst]. now rewrite String.eqb_refl.
Qed.

Lemma upsert_price_others (sku0 key0 : string) (payload : pydict) (f : table) :
  filter (other_than (make_id sku0 key0)) (snd (upsert_price sku0 key0 payload f))
  = filter (other_than (make_id sku0 key0)) f.
Proof.
  destruct (normalize_row (forced sku0 key0 payload)) as [e|d] eqn:E.
  - now rewrite (upsert_price_raises _ _ _ _ _ E).
  - rewrite (upsert_price_ok _ _ _ _ _ E). cbn [snd]. apply replace_row_others.
Qed.

(** C10. Whatever PUT /prices/{sku}/{key} does, the rows stored under any
    other id than sku::key are the same rows afterwards, in the same
    order: a row under another id is in the file afterwards exactly when
    it was there before, with the same data. *)
Theorem upsert_price_frame (sku0 key0 : string) (payload : pydict) (f : table) :
  filter (other_than (make_id sku0 key0)) (snd (upsert_price sku0 key0 payload f))
  = filter (other_than (make_id sku0 key0)) f /\
  forall (pid : string) (data : json),
    pid <> make_id sku0 key0 ->
    (In (pid, data) (snd (upsert_price sku0 key0 payload f)) <-> In (pid, data) f).
Proof.
  pose proof (upsert_price_others sku0 key0 payload f) as F.
  split; [exact F|]. intros pid data N.
  assert (O : other_than (make_id sku0 key0) (pid, data) = true).
  { unfold other_than, has_id. cbn [fst]. apply String.eqb_neq in N. now rewrite N. }
  split; intro H.
  - assert (I : In (pid, data) (filter (other_than (make_id sku0 key0)) f)).
    { rewrite <- F. apply filter_In. now split. }
    now apply filter_In in I.
  - assert (I : In (pid, data)
                   (filter (other_than (make_id sku0 key0))
                           (snd (upsert_price sku0 key0 payload f)))).
    { rewrite F. apply filter_In. now split. }
    now apply filter_In in I.
Qed.

(* a row stored under another id survives a PUT *)
Lemma upsert_price_frame_witness :
  In (record_id record_B, record_data record_B)
     (snd (upsert_price "A" "k" [("price", PInt 7)]
                        [(record_id record_B, record_data record_B)]))
  <-> In (record_id record_B, record_data record_B)
         [(record_id record_B, record_data record_B)].
Proof.
  refine (proj2 (upsert_price_frame "A" "k" [("price", PInt 7)]
                   [(record_id record_B, record_data record_B)]) _ _ _).
  vm_compute. discriminate.
Defined.

(** * C6: upserting the same pair twice *)

(* under the id of the path: after two successful PUTs there is one row,
   that of the second body alone, and the file is what the second PUT by
   itself would have left *)
Lemma upsert_price_replaces (sku0 key0 : string) (p1 p2 : pydict)
      (f f1 f2 : table) (b1 b2 : pyval) :
  upsert_price sku0 key0 p1 f = (inr b1, f1) ->
  upsert_price sku0 key0 p2 f1 = (inr b2, f2) ->
  exists d2,
    normalize_row (forced sku0 key0 p2) = inr d2 /\
    filter (has_id (make_id sku0 key0)) f2 = [(make_id sku0 key0, record_data d2)] /\
    f2 = snd (upsert_price sku0 key0 p2 f).
Proof.
  intros H1 H2.
  destruct (upsert_price_returns _ _ _ _ _ _ H1) as [d1 [_ [_ E1]]].
  destruct (upsert_price_returns _ _ _ _ _ _ H2) as [d2 [Hd2 [_ E2]]].
  exists d2. split; [exact Hd2|]. split.
  - rewrite E2. apply replace_row_same.
  - rewrite (upsert_price_ok _ _ _ f _ Hd2). cbn [snd]. rewrite E2, E1.
    unfold replace_row at 1 3. f_equal.
    apply (replace_row_others (make_id sku0 key0) (record_data d1) f).
Qed.

(* the first body switches the record off, the second does not say *)
Example upsert_price_replaces_sample :
  let f1 := snd (upsert_price "A" "k" [("price", PInt 1); ("isActive", PBool false)]
                              [(record_id record_B, record_data record_B)]) in
  snd (upsert_price "A" "k" [("price", PInt 7)] f1)
  = [(record_id record_B, record_data record_B);
     (record_id record_A', record_data record_A')].
Proof. vm_compute. reflexivity. Qed.

Lemma replace_row_new (pid : string) (data : json) (t : table) :
  In (pid, data) (replace_row pid data t).
Proof. unfold replace_row. apply in_or_app. right. now left. Qed.

Lemma replace_row_keeps (pid pid' : string) (data data' : json) (t : table) :
  pid' <> pid -> In (pid', data') t -> In (pid', data') (replace_row pid data t).
Proof.
  intros N H. unfold replace_row. apply in_or_app. left.
  apply filter_In. split; [exact H|].
  unfold has_id. cbn [fst]. apply String.eqb_neq in N. now rewrite N.
Qed.

(* the record of a PUT holds the path segments, trimmed *)
Lemma upsert_price_record (sku0 key0 : string) (payload : pydict) (d : price_record) :
  normalize_row (forced sku0 key0 payload) = inr d ->
  sku d = PyStr.strip sku0 /\ key d = PyStr.strip key0.
Proof.
  intro E. destruct (normalize_row_fields _ _ E) as [Hs [Hk _]].
  rewrite forced_sku in Hs. rewrite forced_key in Hk. now split.
Qed.

(** C6 (as the code behaves). upsert_price files its record under the id
    made of the path segments as they come, while the record holds them
    trimmed. So when sku1, key1 and sku0, key0 are two spellings of one
    pair (the same once trimmed) with different ids, then on every file a
    successful PUT to sku1, key1 followed by two successful PUTs to sku0,
    key0 leaves two rows whose records have the same sku and key: the one
    of the first PUT and the one of the last, where the claim asks for
    exactly one record for the pair. The record of the last PUT is that of
    its body alone. *)
Theorem upsert_price_twice_two_records
        (sku1 key1 sku0 key0 : string) (p0 p1 p2 : pydict)
        (f f0 f1 f2 : table) (b0 b1 b2 : pyval) :
  PyStr.strip sku1 = PyStr.strip sku0 -> PyStr.strip key1 = PyStr.strip key0 ->
  make_id sku1 key1 <> make_id sku0 key0 ->
  upsert_price sku1 key1 p0 f = (inr b0, f0) ->
  upsert_price sku0 key0 p1 f0 = (inr b1, f1) ->
  upsert_price sku0 key0 p2 f1 = (inr b2, f2) ->
  exists d0 d2,
    normalize_row (forced sku1 key1 p0) = inr d0 /\
    normalize_row (forced sku0 key0 p2) = inr d2 /\
    sku d0 = sku d2 /\ key d0 = key d2 /\
    In (make_id sku1 key1, record_data d0) f2 /\
    In (make_id sku0 key0, record_data d2) f2.
Proof.
  intros Ts Tk N H0 H1 H2.
  destruct (upsert_price_returns _ _ _ _ _ _ H0) as [d0 [Hd0 [_ ->]]].
  destruct (upsert_price_returns _ _ _ _ _ _ H1) as [d1 [_ [_ ->]]].
  destruct (upsert_price_returns _ _ _ _ _ _ H2) as [d2 [Hd2 [_ ->]]].
  destruct (upsert_price_record _ _ _ _ Hd0) as [S0 K0].
  destruct (upsert_price_record _ _ _ _ Hd2) as [S2 K2].
  exists d0, d2. split; [exact Hd0|]. split; [exact Hd2|].
  split; [now rewrite S0, S2|]. split; [now rewrite K0, K2|].
  split; [|apply replace_row_new].
  do 2 (apply replace_row_keeps; [exact N|]). apply replace_row_new.
Qed.

(* on the empty store: PUT " ABC"/retail, then PUT ABC/retail twice *)
Lemma upsert_price_twice_two_records_witness :
  exists d0 d2,
    normalize_row (forced " ABC" "retail" [("price", PInt 1)]) = inr d0 /\
    normalize_row (forced "ABC" "retail" [("price", PInt 3)]) = inr d2 /\
    sku d0 = sku d2 /\ key d0 = key d2 /\
    In (make_id " ABC" "retail", record_data d0) file_padded_twice /\
    In (make_id "ABC" "retail", record_data d2) file_padded_twice.
Proof.
  refine (upsert_price_twice_two_records " ABC" "retail" "ABC" "retail"
            [("price", PInt 1)] [("price", PInt 2)] [("price", PInt 3)]
            [] _ _ file_padded_twice _ _ _ eq_refl eq_refl _ _ _ _).
  - vm_compute. discriminate.
  - vm_compute. reflexivity.
  - vm_compute. reflexivity.
  - vm_compute. reflexivity.
Defined.

(* the file these three PUTs leave, and its listing *)
Example upsert_price_padded_twice :
  let f0 := snd (upsert_price " ABC" "retail" [("price", PInt 1)] []) in
  let f1 := snd (upsert_price "ABC" "retail" [("price", PInt 2)] f0) in
  let f2 := snd (upsert_price "ABC" "retail" [("price", PInt 3)] f1) in
  f2 = file_padded_twice /\
  fst (list_prices f2)
  = Some [listed {| sku := "ABC"; key := "retail"; price := 1; isActive := true |};
          listed {| sku := "ABC"; key := "retail"; price := 3; isActive := true |}].
Proof. split; vm_compute; reflexivity. Qed.

(** * C2: upsert, then list *)

Lemma filter_perm {A : Type} (p : A -> bool) (l l' : list A) :
  Permutation l l' -> Permutation (filter p l) (filter p l').
Proof.
  induction 1 as [|x l l' _ IH|x y l|l l' l'' _ IH1 _ IH2]; cbn [filter].
  - constructor.
  - destruct (p x); [now constructor|exact IH].
  - destruct (p x), (p y); try reflexivity. apply perm_swap.
  - now transitivity (filter p l').
Qed.

Lemma holds_records_replace (pid : string) (d : price_record) (t : table) :
  holds_records t -> holds_records (replace_row pid (record_data d) t).
Proof.
  unfold holds_records, replace_row. intro H. apply Forall_app. split.
  - rewrite Forall_forall in *. intros r Hr. apply filter_In in Hr. now apply H.
  - constructor; [now exists d|constructor].
Qed.

Lemma keyed_holds_records (t : table) : keyed_by_record t -> holds_records t.
Proof.
  unfold keyed_by_record, holds_records. apply Forall_impl.
  intros r [d ->]. now exists d.
Qed.

(* in a file keyed by its records, the rows under other ids hold other
   pairs *)
Lemma keyed_others_pair (a b : string) (t : table) :
  keyed_by_record t ->
  filter (has_pair a b) (decoded (filter (other_than (make_id a b)) t)) = [].
Proof.
  unfold decoded. induction 1 as [|r t [d ->] _ IH]; [reflexivity|].
  cbn [filter]. destruct (other_than (make_id a b) (record_id d, record_data d)) eqn:E;
    [|exact IH].
  cbn [map snd filter]. rewrite record_decoded. unfold has_pair at 1.
  rewrite record_sort_key.
  destruct (String.eqb_spec (sku d) a) as [Ea|Na]; cbn [andb]; [|exact IH].
  destruct (String.eqb_spec (key d) b) as [Eb|Nb]; [|exact IH].
  exfalso. revert E. unfold other_than, has_id, record_id. cbn [fst].
  now rewrite Ea, Eb, String.eqb_refl.
Qed.

(** C2 (amended). When PUT /prices/{sku}/{key} returns on a file of
    records, the file holds exactly one row under the id sku::key, and
    list_prices afterwards contains its record, whose sku and key are the
    input's trimmed of surrounding whitespace and whose price is the
    float of the input price; when sku and key have no surrounding
    whitespace and every row of the file was stored under the id of its
    own record, it is the only listed record with that sku and key. *)
Theorem upsert_then_list (sku0 key0 : string) (payload : pydict) (f f' : table)
        (body : pyval) :
  holds_records f ->
  upsert_price sku0 key0 payload f = (inr body, f') ->
  exists d rows,
    sku d = PyStr.strip sku0 /\ key d = PyStr.strip key0 /\
    py_float (get_default payload "price" PNone) = inr (price d) /\
    filter (has_id (make_id sku0 key0)) f' = [(make_id sku0 key0, record_data d)] /\
    list_prices f' = (Some rows, f') /\
    In (PDict (as_dict d)) rows /\
    (keyed_by_record f -> PyStr.strip sku0 = sku0 -> PyStr.strip key0 = key0 ->
     filter (has_pair sku0 key0) rows = [PDict (as_dict d)]).
Proof.
  intros Hf H.
  destruct (upsert_price_returns _ _ _ _ _ _ H) as [d [Hd [_ E]]].
  destruct (normalize_row_fields _ _ Hd) as [Hs [Hk [Hp _]]].
  rewrite forced_sku in Hs. rewrite forced_key in Hk.
  rewrite forced_other in Hp by discriminate. cbn [py_str] in Hs, Hk.
  assert (Hf' : holds_records f') by (rewrite E; now apply holds_records_replace).
  destruct (sort_rows_sorted (decoded f') (holds_records_keys f' Hf'))
    as [l [_ [Hsort [Hperm _]]]].
  exists d, (map snd (sort l)).
  assert (D : decoded f' =
              (decoded (filter (other_than (make_id sku0 key0)) f)
               ++ [PDict (as_dict d)])%list).
  { rewrite E. unfold decoded, replace_row. now rewrite !map_app. }
  repeat split; try assumption.
  - rewrite E. apply replace_row_same.
  - now rewrite list_prices_unfold, Hsort.
  - apply (Permutation_in _ Hperm). rewrite D. apply in_or_app. right. now left.
  - intros K Ts Tk.
    apply Permutation_length_1_inv.
    rewrite <- (filter_perm (has_pair sku0 key0) _ _ Hperm), D, filter_app.
    rewrite (keyed_others_pair sku0 key0 f K). cbn [app filter].
    unfold has_pair. rewrite record_sort_key, Hs, Hk, Ts, Tk, !String.eqb_refl.
    reflexivity.
Qed.

Lemma upsert_then_list_witness :
  holds_records file_BA /\
  exists d rows,
    sku d = PyStr.strip "A" /\ key d = PyStr.strip "k" /\
    py_float (get_default [("price", PStr "7")] "price" PNone) = inr (price d) /\
    filter (has_id (make_id "A" "k"))
           [(record_id record_B, record_data record_B);
            (record_id record_A', record_data record_A')]
    = [(make_id "A" "k", record_data d)] /\
    list_prices [(record_id record_B, record_data record_B);
                 (record_id record_A', record_data record_A')]
    = (Some rows, [(record_id record_B, record_data record_B);
                   (record_id record_A', record_data record_A')]) /\
    In (PDict (as_dict d)) rows /\
    (keyed_by_record file_BA -> PyStr.strip "A" = "A" -> PyStr.strip "k" = "k" ->
     filter (has_pair "A" "k") rows = [PDict (as_dict d)]).
Proof.
  split; [exact holds_records_BA|].
  refine (upsert_then_list "A" "k" [("price", PStr "7")] file_BA _ _
            holds_records_BA _).
  vm_compute. reflexivity.
Defined.

(** C2 (as stated) fails: the sku of the path is accepted with a leading
    blank, the record is stored with the sku trimmed, and the listing
    holds no record whose sku equals the input's. *)
Lemma upsert_then_list_counterexample :
  upsert_price " ABC" "retail" [("price", PInt 1)] []
  = (inr (PDict [("status", PStr "ok"); ("id", PStr " ABC::retail");
                 ("price", PDict [("sku", PStr "ABC"); ("key", PStr "retail");
                                  ("price", PFloat 1); ("isActive", PBool true)])]),
     [(" ABC::retail",
       record_data {| sku := "ABC"; key := "retail"; price := 1;
                      isActive := true |})]) /\
  list_prices [(" ABC::retail",
                record_data {| sku := "ABC"; key := "retail"; price := 1;
                               isActive := true |})]
  = (Some [PDict [("sku", PStr "ABC"); ("key", PStr "retail");
                  ("price", PFloat 1); ("isActive", PBool true)]],
     [(" ABC::retail",
       record_data {| sku := "ABC"; key := "retail"; price := 1;
                      isActive := true |})]) /\
  filter (has_pair " ABC" "retail")
         [PDict [("sku", PStr "ABC"); ("key", PStr "retail");
                 ("price", PFloat 1); ("isActive", PBool true)]] = [].
Proof. repeat split; vm_compute; reflexivity. Qed.

(** * C7: the errors of the normalizer *)

Lemma is_empty_true (s : string) : PyStr.is_empty s = true <-> s = "".
Proof. destruct s; split; intro H; try reflexivity; discriminate. Qed.

Lemma is_empty_false (s : string) : PyStr.is_empty s = false <-> s <> "".
Proof.
  destruct s; split; intro H; try reflexivity; try discriminate.
  now destruct H.
Qed.

(* normalize_row past its first check *)
Lemma normalize_row_fields_ok (row : pydict) :
  field row "sku" <> "" -> field row "key" <> "" ->
  normalize_row row =
  match get_default row "price" PNone with
  | PNone => inl (ValueError "price is required")
  | p =>
      if String.eqb (PyStr.strip (py_str p)) "" then
        inl (ValueError "price is required")
      else
        match py_float p with
        | inl e => inl e
        | inr x =>
            inr {| sku := field row "sku"; key := field row "key"; price := x;
                   isActive := normalize_bool (get_default row "isActive" (PBool true)) |}
        end
  end.
Proof.
  intros Hs Hk. apply is_empty_false in Hs, Hk. unfold normalize_row.
  fold (field row "sku") (field row "key"). rewrite Hs, Hk. cbn [orb].
  now destruct (get_default row "price" PNone).
Qed.

Lemma normalize_row_blank_field (row : pydict) :
  field row "sku" = "" \/ field row "key" = "" ->
  normalize_row row = inl (ValueError "sku and key are required").
Proof.
  intro H. unfold normalize_row. fold (field row "sku") (field row "key").
  replace (PyStr.is_empty (field row "sku") || PyStr.is_empty (field row "key"))
    with true; [reflexivity|].
  symmetry. apply orb_true_iff. now rewrite !is_empty_true.
Qed.

Lemma field_blank_or_not (row : pydict) :
  (field row "sku" = "" \/ field row "key" = "") \/
  (field row "sku" <> "" /\ field row "key" <> "").
Proof.
  destruct (string_dec (field row "sku") "") as [E1|N1]; [now left; left|].
  destruct (string_dec (field row "key") "") as [E2|N2]; [now left; right|].
  now right.
Qed.

Lemma py_float_message (p : pyval) (msg : string) :
  py_float p = inl (ValueError msg) ->
  exists s, msg = "could not convert string to float: " ++ s.
Proof.
  destruct p as [|b|n|x|s|l|d]; cbn [py_float]; try discriminate.
  - destruct (PyFloat.of_int n); discriminate.
  - destruct (PyFloat.of_str s); [discriminate|].
    intro H. injection H as <-. now exists (PyStr.repr s).
Qed.

Lemma strip_head (c : ascii) (s : string) :
  PyStr.isspace c = false -> PyStr.strip (String c s) <> "".
Proof.
  intro H. unfold PyStr.strip. cbn [PyStr.lstrip]. rewrite H.
  cbn [PyStr.rstrip]. destruct (PyStr.rstrip s); [now rewrite H|discriminate].
Qed.

(** C7 (amended). normalize_row raises ValueError "sku and key are
    required" exactly when sku or key is empty once coerced to str and
    trimmed. It raises ValueError "price is required" exactly when sku and
    key pass that check and price is absent, null, or empty once coerced
    to str and trimmed. A price that is a str float() cannot read raises
    ValueError too, with the message of float(). When the normalizer
    raises, upsert_price and reset_prices leave the file as it was. *)
Theorem normalize_row_errors :
  (forall row : pydict,
      normalize_row row = inl (ValueError "sku and key are required") <->
      field row "sku" = "" \/ field row "key" = "") /\
  (forall row : pydict,
      normalize_row row = inl (ValueError "price is required") <->
      field row "sku" <> "" /\ field row "key" <> "" /\ price_missing row) /\
  (forall (row : pydict) (s : string),
      field row "sku" <> "" -> field row "key" <> "" ->
      get_default row "price" PNone = PStr s -> PyStr.strip s <> "" ->
      PyFloat.of_str s = None ->
      normalize_row row =
      inl (ValueError ("could not convert string to float: " ++ PyStr.repr s))) /\
  (forall (sku0 key0 : string) (payload : pydict) (f : table) (e : exn),
      normalize_row (forced sku0 key0 payload) = inl e ->
      snd (upsert_price sku0 key0 payload f) = f) /\
  (forall (items : list pydict) (f : table),
      some_fails items -> snd (reset_prices items f) = f).
Proof.
  split; [|split; [|split; [|split]]].
  - intro row. split; [|apply normalize_row_blank_field].
    destruct (field_blank_or_not row) as [B|[Hs Hk]]; [now intros _|].
    rewrite (normalize_row_fields_ok row Hs Hk).
    destruct (get_default row "price" PNone) as [|b|n|x|s|l|d]; cbv iota beta zeta;
      try discriminate;
      destruct (String.eqb _ _); try discriminate;
      destruct (py_float _) as [e|y] eqn:E; try discriminate;
      intro H; injection H as ->;
      destruct (py_float_message _ _ E) as [m Hm]; discriminate.
  - intro row. split.
    + destruct (field_blank_or_not row) as [B|[Hs Hk]].
      * rewrite (normalize_row_blank_field row B). discriminate.
      * rewrite (normalize_row_fields_ok row Hs Hk). unfold price_missing.
        destruct (get_default row "price" PNone) as [|b|n|x|s|l|d]; cbv iota beta zeta;
          try (intros _; repeat split; try assumption; now left);
          match goal with
          | |- context [String.eqb ?a ?b] => destruct (String.eqb a b) eqn:Es
          end;
          try (intros _; repeat split; try assumption; right;
               now apply String.eqb_eq);
          destruct (py_float _) as [e|y] eqn:E; try discriminate;
          intro H; injection H as ->;
          destruct (py_float_message _ _ E) as [m Hm]; discriminate.
    + intros [Hs [Hk M]]. rewrite (normalize_row_fields_ok row Hs Hk).
      destruct M as [M|M].
      * now rewrite M.
      * apply String.eqb_eq in M. revert M.
        destruct (get_default row "price" PNone); intro M; cbv iota beta zeta;
          try reflexivity; now rewrite M.
  - intros row s Hs Hk Hp Hn Hf. rewrite (normalize_row_fields_ok row Hs Hk), Hp.
    cbn [py_str py_float]. apply String.eqb_neq in Hn. now rewrite Hn, Hf.
  - intros sku0 key0 payload f e. apply upsert_price_raises.
  - intros items f H. destruct (reset_prices_fails items f H) as [e He].
    now rewrite He.
Qed.

(* a price that is a str float() cannot read *)
Lemma normalize_row_errors_witness :
  normalize_row row_abc =
  inl (ValueError ("could not convert string to float: " ++ PyStr.repr "abc")).
Proof.
  refine (proj1 (proj2 (proj2 normalize_row_errors)) row_abc "abc" _ _ eq_refl _ _).
  - vm_compute. discriminate.
  - vm_compute. discriminate.
  - vm_compute. discriminate.
  - vm_compute. reflexivity.
Defined.

(** C7 (as stated) fails: the check of sku and key comes first. With a
    blank sku and no price, the price is missing and yet the error is not
    "price is required". *)
Lemma normalize_row_errors_counterexample :
  dict_get [("sku", PStr ""); ("key", PStr "k")] "price" = None /\
  normalize_row [("sku", PStr ""); ("key", PStr "k")]
  = inl (ValueError "sku and key are required") /\
  normalize_row [("sku", PStr ""); ("key", PStr "k")]
  <> inl (ValueError "price is required").
Proof. repeat split; vm_compute; try reflexivity; discriminate. Qed.

(* an int beyond the range of float is neither: OverflowError *)
Example normalize_row_overflow :
  normalize_row [("sku", PStr "a"); ("key", PStr "k"); ("price", PInt (10 ^ 400))]
  = inl (OverflowError "int too large to convert to float").
Proof. vm_compute. reflexivity. Qed.

(** * C8: isActive *)

Lemma existsb_truthy (s : string) :
  existsb (String.eqb s) truthy = true <-> In s truthy.
Proof. apply existsb_eqb_In. Qed.

(** C8. normalize_bool is a total function to bool. A bool passes through
    unchanged; a row without isActive gets true; any other value is true
    exactly when its str, trimmed and lowercased, is one of true, 1, yes,
    y, sim. So Yes, SIM, 1 and True give true, and no, the empty string
    and 0 give false. *)
Theorem normalize_bool_cases :
  (forall b : bool, normalize_bool (PBool b) = b) /\
  (forall (row : pydict) (r : price_record),
      normalize_row row = inr r -> dict_get row "isActive" = None ->
      isActive r = true) /\
  (forall (row : pydict) (r : price_record) (v : pyval),
      normalize_row row = inr r -> dict_get row "isActive" = Some v ->
      isActive r = normalize_bool v) /\
  (forall v : pyval,
      (forall b, v <> PBool b) ->
      (normalize_bool v = true <->
       In (PyStr.lower (PyStr.strip (py_str v))) truthy)) /\
  (normalize_bool (PStr "Yes") = true /\ normalize_bool (PStr "SIM") = true /\
   normalize_bool (PStr "1") = true /\ normalize_bool (PBool true) = true) /\
  (normalize_bool (PStr "no") = false /\ normalize_bool (PStr "") = false /\
   normalize_bool (PStr "0") = false).
Proof.
  split; [reflexivity|]. split; [|split; [|split; [|split]]].
  - intros row r H A. destruct (normalize_row_fields _ _ H) as [_ [_ [_ ->]]].
    unfold get_default. now rewrite A.
  - intros row r v H A. destruct (normalize_row_fields _ _ H) as [_ [_ [_ ->]]].
    unfold get_default. now rewrite A.
  - intros v N. destruct v as [|b|n|x|s|l|d]; cbn [normalize_bool];
      try apply existsb_truthy.
    + split; [discriminate|]. cbn. intuition discriminate.
    + now destruct (N b).
  - repeat split; vm_compute; reflexivity.
  - repeat split; vm_compute; reflexivity.
Qed.

(* a row that says isActive " SIM " and one that does not say *)
Lemma normalize_bool_cases_witness :
  isActive {| sku := "a"; key := "k"; price := 3; isActive := true |}
  = normalize_bool (PStr " SIM ") /\
  isActive {| sku := "a"; key := "k"; price := 3; isActive := true |} = true.
Proof.
  split.
  - refine (proj1 (proj2 (proj2 normalize_bool_cases))
              [("sku", PStr "a"); ("key", PStr "k"); ("price", PInt 3);
               ("isActive", PStr " SIM ")] _ (PStr " SIM ") _ eq_refl).
    vm_compute. reflexivity.
  - refine (proj1 (proj2 normalize_bool_cases)
              [("sku", PStr "a"); ("key", PStr "k"); ("price", PInt 3)] _ _ eq_refl).
    vm_compute. reflexivity.
Defined.

(* null is present, and false *)
Example normalize_bool_null :
  normalize_row [("sku", PStr "a"); ("key", PStr "k"); ("price", PInt 3);
                 ("isActive", PNone)]
  = inr {| sku := "a"; key := "k"; price := 3; isActive := false |}.
Proof. vm_compute. reflexivity. Qed.

(** * What the handlers keep true of the file *)

Lemma keyed_replace (d : price_record) (t : table) :
  keyed_by_record t -> keyed_by_record (replace_row (record_id d) (record_data d) t).
Proof.
  unfold keyed_by_record, replace_row. intro H. apply Forall_app. split.
  - rewrite Forall_forall in *. intros r Hr. apply filter_In in Hr. now apply H.
  - constructor; [now exists d|constructor].
Qed.

Lemma write_all_keyed (rs : list price_record) (t : table) :
  keyed_by_record t -> keyed_by_record (write_all rs t).
Proof.
  revert t. induction rs as [|r rs IH]; intros t H; [exact H|].
  cbn [write_all fold_left]. apply IH. now apply keyed_replace.
Qed.

(* reset_prices leaves a file keyed by its records *)
Lemma reset_prices_keyed (items : list pydict) (f : table) :
  keyed_by_record f -> keyed_by_record (snd (reset_prices items f)).
Proof.
  intro H. destruct (some_fails_or_all_normalize items) as [F|[rs N]].
  - destruct (reset_prices_fails items f F) as [e ->]. exact H.
  - rewrite (reset_prices_writes items rs f N). cbn [snd].
    apply write_all_keyed. constructor.
Qed.

(* so does upsert_price, when the path segments have no surrounding blanks *)
Lemma upsert_price_keyed (sku0 key0 : string) (payload : pydict) (f : table) :
  PyStr.strip sku0 = sku0 -> PyStr.strip key0 = key0 ->
  keyed_by_record f -> keyed_by_record (snd (upsert_price sku0 key0 payload f)).
Proof.
  intros Ts Tk H.
  destruct (normalize_row (forced sku0 key0 payload)) as [e|d] eqn:E.
  - now rewrite (upsert_price_raises _ _ _ _ _ E).
  - rewrite (upsert_price_ok _ _ _ _ _ E). cbn [snd].
    destruct (normalize_row_fields _ _ E) as [Hs [Hk _]].
    rewrite forced_sku in Hs. rewrite forced_key in Hk. cbn [py_str] in Hs, Hk.
    replace (make_id sku0 key0) with (record_id d)
      by (unfold record_id; now rewrite Hs, Hk, Ts, Tk).
    now apply keyed_replace.
Qed.

(* upsert_price always leaves a file of records *)
Lemma upsert_price_holds_records (sku0 key0 : string) (payload : pydict) (f : table) :
  holds_records f -> holds_records (snd (upsert_price sku0 key0 payload f)).
Proof.
  intro H.
  destruct (normalize_row (forced sku0 key0 payload)) as [e|d] eqn:E.
  - now rewrite (upsert_price_raises _ _ _ _ _ E).
  - rewrite (upsert_price_ok _ _ _ _ _ E). cbn [snd].
    now apply holds_records_replace.
Qed.

(* a path segment with a blank: the row goes under the id of the path while
   its record holds the trimmed sku, and a later PUT to the trimmed path
   adds a second row for the same sku and key *)
Example upsert_price_padded_then_plain :
  let f1 := snd (upsert_price " ABC" "retail" [("price", PInt 1)] []) in
  let f2 := snd (upsert_price "ABC" "retail" [("price", PInt 2)] f1) in
  map fst f2 = [" ABC::retail"; "ABC::retail"] /\
  option_map (filter (has_pair "ABC" "retail")) (fst (list_prices f2))
  = Some [PDict [("sku", PStr "ABC"); ("key", PStr "retail");
                 ("price", PFloat 1); ("isActive", PBool true)];
          PDict [("sku", PStr "ABC"); ("key", PStr "retail");
                 ("price", PFloat 2); ("isActive", PBool true)]].
Proof. split; vm_compute; reflexivity. Qed.

(* and so does reset_prices *)
Lemma reset_prices_holds_records (items : list pydict) (f : table) :
  holds_records f -> holds_records (snd (reset_prices items f)).
Proof.
  intro H. destruct (some_fails_or_all_normalize items) as [F|[rs N]].
  - destruct (reset_prices_fails items f F) as [e ->]. exact H.
  - rewrite (reset_prices_writes items rs f N). cbn [snd].
    apply keyed_holds_records, write_all_keyed. constructor.
Qed.

(** * Trimming *)

Lemma rstrip_head (c : ascii) (s : string) :
  PyStr.isspace c = false -> PyStr.rstrip (String c s) = String c (PyStr.rstrip s).
Proof.
  intro H. cbn [PyStr.rstrip]. destruct (PyStr.rstrip s); [now rewrite H|reflexivity].
Qed.

Lemma rstrip_idem (s : string) : PyStr.rstrip (PyStr.rstrip s) = PyStr.rstrip s.
Proof.
  induction s as [|c s IH]; [reflexivity|].
  cbn [PyStr.rstrip]. destruct (PyStr.rstrip s) as [|d r] eqn:E.
  - destruct (PyStr.isspace c) eqn:Hc; [reflexivity|].
    cbn [PyStr.rstrip]. now rewrite Hc.
  - change (PyStr.rstrip (String c (String d r))) with
      (match PyStr.rstrip (String d r) with
       | EmptyString => if PyStr.isspace c then EmptyString else String c EmptyString
       | x => String c x
       end).
    now rewrite IH.
Qed.

Lemma lstrip_cases (s : string) :
  PyStr.lstrip s = "" \/
  exists c t, PyStr.lstrip s = String c t /\ PyStr.isspace c = false.
Proof.
  induction s as [|c s IH]; [now left|].
  cbn [PyStr.lstrip]. destruct (PyStr.isspace c) eqn:Hc; [exact IH|].
  right. now exists c, s.
Qed.

(* trimming twice is trimming once *)
Lemma strip_idem (s : string) : PyStr.strip (PyStr.strip s) = PyStr.strip s.
Proof.
  unfold PyStr.strip. destruct (lstrip_cases s) as [E|[c [t [E Hc]]]]; rewrite E.
  - reflexivity.
  - rewrite (rstrip_head c t Hc). cbn [PyStr.lstrip]. rewrite Hc.
    rewrite (rstrip_head c _ Hc). now rewrite rstrip_idem.
Qed.

Lemma solid_strip (s : string) : solid s -> PyStr.strip s <> "".
Proof. intros [c [t [-> Hc]]]. now apply strip_head. Qed.

Lemma of_int_solid (n : Z) : solid (PyStr.of_int n).
Proof.
  unfold solid, PyStr.of_int, NilZero.string_of_int.
  destruct (Z.to_int n) as [u|u].
  - destruct u; cbn; eexists; eexists; (split; [reflexivity|reflexivity]).
  - eexists; eexists; (split; [reflexivity|reflexivity]).
Qed.

Lemma layout_solid (ds : string) (decpt : Z) :
  solid ds -> solid (PyFloat.layout ds decpt).
Proof.
  intros [c [t [-> Hc]]]. unfold PyFloat.layout.
  destruct (_ || _).
  - destruct t; eexists; eexists; (split; [reflexivity|exact Hc]).
  - destruct (decpt <=? 0).
    + eexists; eexists; (split; [reflexivity|reflexivity]).
    + destruct (decpt <? _).
      * destruct (Z.to_nat decpt) as [|k].
        -- cbn [substring append]. eexists; eexists; (split; [reflexivity|reflexivity]).
        -- cbn [substring append]. eexists; eexists; (split; [reflexivity|exact Hc]).
      * cbn [append]. eexists; eexists; (split; [reflexivity|exact Hc]).
Qed.

(* repr of a float is never blank *)
Lemma float_repr_solid (x : float) : solid (PyFloat.repr x).
Proof.
  unfold PyFloat.repr, PyFloat.repr_SF.
  destruct (Prim2SF x) as [neg|neg| |neg m e].
  - destruct neg; eexists; eexists; (split; [reflexivity|reflexivity]).
  - destruct neg; eexists; eexists; (split; [reflexivity|reflexivity]).
  - eexists; eexists; (split; [reflexivity|reflexivity]).
  - destruct (PyFloat.shortest _ _ _ _ _ _) as [c0 k0].
    destruct (PyFloat.drop_zeros _ _ _) as [c k].
    destruct neg.
    + cbn [append]. eexists; eexists; (split; [reflexivity|reflexivity]).
    + cbn [append]. apply layout_solid, of_int_solid.
Qed.

(** * What the normalizer returns *)

(* the sku and key of a record normalize_row returns are clean *)
Lemma normalized_clean (row : pydict) (r : price_record) :
  normalize_row row = inr r -> clean (sku r) /\ clean (key r).
Proof.
  intro H. destruct (normalize_row_fields _ _ H) as [Hs [Hk _]].
  destruct (field_blank_or_not row) as [B|[Ns Nk]].
  - rewrite (normalize_row_blank_field row B) in H. discriminate.
  - unfold field in Ns, Nk. unfold clean. rewrite Hs, Hk, !strip_idem. now repeat split.
Qed.

(* a record with clean sku and key, read as a body, normalizes to itself *)
Lemma normalize_clean_record (r : price_record) :
  clean (sku r) -> clean (key r) -> normalize_row (as_dict r) = inr r.
Proof.
  intros [Ns Ts] [Nk Tk].
  assert (Fs : field (as_dict r) "sku" = sku r) by exact Ts.
  assert (Fk : field (as_dict r) "key" = key r) by exact Tk.
  rewrite normalize_row_fields_ok by (rewrite ?Fs, ?Fk; assumption).
  rewrite Fs, Fk.
  change (get_default (as_dict r) "price" PNone) with (PFloat (price r)).
  change (get_default (as_dict r) "isActive" (PBool true)) with (PBool (isActive r)).
  cbv iota beta zeta. cbn [py_str py_repr py_float normalize_bool].
  pose proof (solid_strip _ (float_repr_solid (price r))) as N.
  apply String.eqb_neq in N. rewrite N. now destruct r.
Qed.

(** X1. Normalizing is idempotent: the record normalize_row returns, read
    back as a body, normalizes to the same record; so what GET /prices
    lists can be sent back to POST /prices/reset element by element. *)
Theorem normalize_row_again (row : pydict) (r : price_record) :
  normalize_row row = inr r -> normalize_row (as_dict r) = inr r.
Proof.
  intro H. destruct (normalized_clean row r H) as [Cs Ck].
  now apply normalize_clean_record.
Qed.

Lemma normalize_row_again_witness :
  normalize_row (as_dict {| sku := "ABC"; key := "retail"; price := 1000;
                            isActive := true |})
  = inr {| sku := "ABC"; key := "retail"; price := 1000; isActive := true |}.
Proof.
  refine (normalize_row_again (forced " ABC " "retail" body_zz) _ _).
  vm_compute. reflexivity.
Defined.

(** * What a batch of writes leaves *)

Lemma other_than_row_not_in (pid : string) (r : row) :
  other_than pid r = row_not_in [pid] r.
Proof.
  unfold other_than, has_id, row_not_in, not_in. cbn [existsb].
  now rewrite orb_false_r.
Qed.

Lemma replace_row_rows (pid : string) (data : json) (t : table) :
  replace_row pid data t = (filter (row_not_in [pid]) t ++ [(pid, data)])%list.
Proof.
  unfold replace_row. f_equal. apply filter_ext. intro r.
  apply (other_than_row_not_in pid r).
Qed.

Lemma filter_row_not_in_cons (pid : string) (ids : list string) (t : table) :
  filter (row_not_in ids) (filter (row_not_in [pid]) t)
  = filter (row_not_in (pid :: ids)) t.
Proof.
  induction t as [|r t IH]; [reflexivity|].
  cbn [filter].
  replace (row_not_in [pid] r) with (negb (String.eqb (fst r) pid))
    by (unfold row_not_in, not_in; cbn [existsb]; now rewrite orb_false_r).
  replace (row_not_in (pid :: ids) r)
    with (negb (String.eqb (fst r) pid) && row_not_in ids r)
    by (unfold row_not_in; now rewrite not_in_cons).
  destruct (String.eqb (fst r) pid); cbn [negb andb filter]; [exact IH|].
  destruct (row_not_in ids r); now rewrite IH.
Qed.

(* the rows after a batch: the rows under ids the batch does not write, as
   they were, then the last row of each id of the batch *)
Lemma write_all_rows (rs : list price_record) (t : table) :
  write_all rs t =
  (filter (row_not_in (map record_id rs)) t ++ last_rows rs)%list.
Proof.
  revert t. induction rs as [|r rs IH]; intro t.
  - cbn [write_all fold_left map last_rows]. rewrite app_nil_r.
    induction t as [|x t IHt]; [reflexivity|].
    cbn [filter]. unfold row_not_in at 1, not_in. cbn [existsb negb].
    now rewrite <- IHt.
  - change (write_all (r :: rs) t)
      with (write_all rs (replace_row (record_id r) (record_data r) t)).
    rewrite IH, replace_row_rows, filter_app, filter_row_not_in_cons.
    rewrite <- app_assoc. f_equal. cbn [map last_rows filter].
    unfold row_not_in at 1, not_in. cbn [fst].
    now destruct (existsb (String.eqb (record_id r)) (map record_id rs)).
Qed.

Lemma last_rows_in (rs : list price_record) (x : row) :
  In x (last_rows rs) -> exists r, In r rs /\ x = record_row r.
Proof.
  induction rs as [|r rs IH]; cbn [last_rows]; [contradiction|].
  destruct (existsb _ _).
  - intro H. destruct (IH H) as [r' [Hr' E]]. exists r'. split; [now right|exact E].
  - intros [<-|H].
    + exists r. split; [now left|reflexivity].
    + destruct (IH H) as [r' [Hr' E]]. exists r'. split; [now right|exact E].
Qed.

Lemma last_rows_ids (rs : list price_record) (pid : string) :
  In pid (map fst (last_rows rs)) <-> In pid (map record_id rs).
Proof.
  induction rs as [|r rs IH]; cbn [last_rows map]; [reflexivity|].
  destruct (existsb _ _) eqn:E.
  - rewrite IH. split; [now right|]. intros [<-|H]; [|exact H].
    now apply existsb_eqb_In.
  - cbn [map fst record_row In]. now rewrite IH.
Qed.

Lemma last_rows_nodup (rs : list price_record) : NoDup (map fst (last_rows rs)).
Proof.
  induction rs as [|r rs IH]; cbn [last_rows map]; [constructor|].
  destruct (existsb _ _) eqn:E; [exact IH|].
  cbn [map fst record_row]. constructor; [|exact IH].
  rewrite last_rows_ids. intro H. apply existsb_eqb_In in H. congruence.
Qed.


Lemma row_not_in_spec (ids : list string) (r : row) :
  row_not_in ids r = true <-> ~ In (fst r) ids.
Proof.
  unfold row_not_in, not_in. rewrite negb_true_iff.
  rewrite <- existsb_eqb_In. now destruct (existsb _ _).
Qed.

Lemma write_all_nodup (rs : list price_record) (t : table) :
  NoDup (map fst t) -> NoDup (map fst (write_all rs t)).
Proof.
  intro H. rewrite write_all_rows, map_app. apply NoDup_app.
  - clear - H. induction t as [|x t IH]; [constructor|].
    cbn [map] in H. apply NoDup_cons_iff in H as [Hn H].
    cbn [filter]. destruct (row_not_in _ x); [|now apply IH].
    cbn [map]. constructor; [|now apply IH].
    intro I. apply Hn. apply in_map_iff in I as [y [Ey Hy]].
    apply filter_In in Hy as [Hy _]. apply in_map_iff. now exists y.
  - apply last_rows_nodup.
  - intros pid I1 I2. apply in_map_iff in I1 as [x [<- Hx]].
    apply filter_In in Hx as [_ Hx]. apply row_not_in_spec in Hx.
    now apply last_rows_ids in I2.
Qed.

Lemma write_all_clean (items : list pydict) (rs : list price_record) (t : table) :
  all_normalize items rs -> clean_records t -> clean_records (write_all rs t).
Proof.
  intros N H. rewrite write_all_rows. apply Forall_app. split.
  - unfold clean_records in *. rewrite Forall_forall in *. intros x Hx.
    apply filter_In in Hx. now apply H.
  - unfold clean_records. rewrite Forall_forall. intros x Hx.
    destruct (last_rows_in rs x Hx) as [r [Hr ->]].
    exists r. split; [reflexivity|].
    clear - N Hr. induction N as [|item r' items rs E _ IH]; [contradiction|].
    destruct Hr as [->|Hr]; [now apply (normalized_clean item)|now apply IH].
Qed.

(** * The startup import *)

Lemma load_unfold (rows : list pydict) (f : table) :
  load_from_excel_if_exists (Some rows) f =
  try_finally_close (for_each reset_step rows ;; commit) (get_db f).
Proof. reflexivity. Qed.

(* a row that fails normalization ends the import before the commit *)
Lemma load_fails (rows : list pydict) (f : table) :
  some_fails rows -> exists e, load_from_excel_if_exists (Some rows) f = (inl e, f).
Proof.
  intro H. rewrite load_unfold.
  destruct (for_each_reset_fails rows {| file := f; view := f |} H) as [e He].
  pose proof (for_each_reset_file rows {| file := f; view := f |}) as Hf.
  exists e. unfold try_finally_close, get_db, connect. unfold bind at 1.
  destruct (for_each reset_step rows {| file := f; view := f |}) as [r c'].
  cbn [fst snd file] in He, Hf. subst r. unfold close. now rewrite Hf.
Qed.

(* when every row normalizes the import writes the records over the file *)
Lemma load_writes (rows : list pydict) (rs : list price_record) (f : table) :
  all_normalize rows rs ->
  load_from_excel_if_exists (Some rows) f = (inr tt, write_all rs f).
Proof.
  intro H. rewrite load_unfold.
  unfold try_finally_close, get_db, connect. unfold bind at 1.
  rewrite (for_each_reset_writes rows rs _ H). reflexivity.
Qed.

(** X2. The startup import is all-or-nothing: without a sheet it does
    nothing, and when some row of the sheet fails normalization it raises
    and leaves the file as it was, the rows written before the failing one
    never being committed. *)
Theorem load_all_or_nothing :
  (forall f : table, load_from_excel_if_exists None f = (inr tt, f)) /\
  (forall (rows : list pydict) (f : table),
      some_fails rows ->
      exists e, load_from_excel_if_exists (Some rows) f = (inl e, f)).
Proof. split; [reflexivity|apply load_fails]. Qed.

Lemma load_all_or_nothing_witness :
  some_fails sheet_bad /\
  exists e, load_from_excel_if_exists (Some sheet_bad) file_BA = (inl e, file_BA).
Proof.
  assert (H : some_fails sheet_bad).
  { apply Exists_cons_tl, Exists_cons_hd.
    exists (ValueError ("could not convert string to float: " ++ PyStr.repr "n/a")).
    vm_compute. reflexivity. }
  exact (conj H (proj2 load_all_or_nothing sheet_bad file_BA H)).
Defined.

(** X3. The startup import is additive: when every row of the sheet
    normalizes, the rows stored under ids the sheet does not write stay as
    they were and in their order, and after them comes, for each id of the
    sheet, the record of the last row with that id. *)
Theorem load_additive (rows : list pydict) (rs : list price_record) (f : table) :
  all_normalize rows rs ->
  load_from_excel_if_exists (Some rows) f =
  (inr tt, (filter (row_not_in (map record_id rs)) f ++ last_rows rs)%list).
Proof. intro H. now rewrite (load_writes rows rs f H), write_all_rows. Qed.

Lemma all_normalize_AB : all_normalize sheet_AB records_AB.
Proof. repeat constructor. Qed.

(* B stays, A is replaced by the last row for A, C is new *)
Lemma load_additive_witness :
  all_normalize sheet_AB records_AB /\
  load_from_excel_if_exists (Some sheet_AB) file_BA =
  (inr tt,
   [record_row record_B;
    record_row {| sku := "C"; key := "k"; price := 4; isActive := false |};
    record_row {| sku := "A"; key := "k"; price := 3; isActive := true |}]).
Proof.
  exact (conj all_normalize_AB (load_additive sheet_AB records_AB file_BA all_normalize_AB)).
Defined.

(** X4. A successful reset leaves, whatever the file held, exactly the last
    row of each id of the batch, in the order of these last rows: the file
    the startup import of the same batch leaves in an empty store. In
    particular the empty batch empties the store. *)
Theorem reset_prices_contents (items : list pydict) (rs : list price_record)
        (f : table) :
  all_normalize items rs ->
  snd (reset_prices items f) = last_rows rs /\
  snd (load_from_excel_if_exists (Some items) []) = last_rows rs.
Proof.
  intro H. rewrite (reset_prices_writes items rs f H), (load_writes items rs [] H).
  cbn [snd]. now rewrite write_all_rows.
Qed.

Lemma reset_prices_contents_witness :
  all_normalize sheet_AB records_AB /\
  snd (reset_prices sheet_AB file_BA) =
  [record_row {| sku := "C"; key := "k"; price := 4; isActive := false |};
   record_row {| sku := "A"; key := "k"; price := 3; isActive := true |}] /\
  snd (load_from_excel_if_exists (Some sheet_AB) []) =
  [record_row {| sku := "C"; key := "k"; price := 4; isActive := false |};
   record_row {| sku := "A"; key := "k"; price := 3; isActive := true |}].
Proof.
  exact (conj all_normalize_AB
              (reset_prices_contents sheet_AB records_AB file_BA all_normalize_AB)).
Defined.

Lemma filter_none {A : Type} (p : A -> bool) (l : list A) :
  (forall x, In x l -> p x = false) -> filter p l = [].
Proof.
  induction l as [|x l IH]; intro H; [reflexivity|].
  cbn [filter]. rewrite (H x (or_introl eq_refl)). apply IH.
  intros y Hy. apply H. now right.
Qed.

Lemma write_all_twice (rs : list price_record) (t : table) :
  write_all rs (write_all rs t) = write_all rs t.
Proof.
  rewrite (write_all_rows rs (write_all rs t)), (write_all_rows rs t).
  rewrite filter_app, filter_twice.
  rewrite (filter_none (row_not_in (map record_id rs)) (last_rows rs));
    [now rewrite app_nil_r|].
  intros x Hx. destruct (row_not_in _ x) eqn:E; [|reflexivity].
  apply row_not_in_spec in E. exfalso. apply E, last_rows_ids, in_map. exact Hx.
Qed.

(** X5. Importing the same sheet twice leaves the file the first import
    left: the startup import is idempotent, so restarting the service
    with an unchanged sheet changes nothing. *)
Theorem load_twice (rows : list pydict) (rs : list price_record) (f : table) :
  all_normalize rows rs ->
  load_from_excel_if_exists (Some rows)
    (snd (load_from_excel_if_exists (Some rows) f))
  = load_from_excel_if_exists (Some rows) f.
Proof.
  intro H. rewrite (load_writes rows rs f H). cbn [snd].
  now rewrite (load_writes rows rs _ H), write_all_twice.
Qed.

Lemma load_twice_witness :
  all_normalize sheet_AB records_AB /\
  load_from_excel_if_exists (Some sheet_AB)
    (snd (load_from_excel_if_exists (Some sheet_AB) file_BA))
  = load_from_excel_if_exists (Some sheet_AB) file_BA.
Proof.
  exact (conj all_normalize_AB (load_twice sheet_AB records_AB file_BA all_normalize_AB)).
Defined.

(** * What every writer keeps true of the file *)

Lemma replace_row_nodup (pid : string) (data : json) (t : table) :
  NoDup (map fst t) -> NoDup (map fst (replace_row pid data t)).
Proof.
  intro H. rewrite replace_row_ids. apply NoDup_app.
  - now apply NoDup_filter.
  - repeat constructor. intros [].
  - intros i Hi [<-|[]]. apply filter_In in Hi as [_ Hi]. revert Hi.
    unfold not_in. cbn [existsb]. now rewrite String.eqb_refl.
Qed.

(* the outcome of a writer on the file, case by case *)
Lemma upsert_price_file (sku0 key0 : string) (payload : pydict) (f : table) :
  snd (upsert_price sku0 key0 payload f) = f \/
  exists d, normalize_row (forced sku0 key0 payload) = inr d /\
            snd (upsert_price sku0 key0 payload f)
            = replace_row (make_id sku0 key0) (record_data d) f.
Proof.
  destruct (normalize_row (forced sku0 key0 payload)) as [e|d] eqn:E.
  - left. now apply (upsert_price_raises _ _ _ _ e).
  - right. exists d. split; [reflexivity|]. now rewrite (upsert_price_ok _ _ _ _ _ E).
Qed.

Lemma reset_prices_file (items : list pydict) (f : table) :
  snd (reset_prices items f) = f \/
  exists rs, all_normalize items rs /\ snd (reset_prices items f) = write_all rs [].
Proof.
  destruct (some_fails_or_all_normalize items) as [F|[rs N]].
  - left. now destruct (reset_prices_fails items f F) as [e ->].
  - right. exists rs. split; [exact N|]. now rewrite (reset_prices_writes items rs f N).
Qed.

Lemma load_file (sheet : option (list pydict)) (f : table) :
  snd (load_from_excel_if_exists sheet f) = f \/
  exists rows rs, sheet = Some rows /\ all_normalize rows rs /\
                  snd (load_from_excel_if_exists sheet f) = write_all rs f.
Proof.
  destruct sheet as [rows|]; [|now left].
  destruct (some_fails_or_all_normalize rows) as [F|[rs N]].
  - left. now destruct (load_fails rows f F) as [e ->].
  - right. exists rows, rs. split; [reflexivity|]. split; [exact N|].
    now rewrite (load_writes rows rs f N).
Qed.

(** X6. The primary key holds: in a file whose ids are pairwise distinct,
    they are still pairwise distinct after upsert_price, after
    reset_prices and after the startup import, whatever these are given
    and whether they return or raise. *)
Theorem writers_keep_ids_distinct (f : table) :
  NoDup (map fst f) ->
  (forall sku0 key0 payload, NoDup (map fst (snd (upsert_price sku0 key0 payload f)))) /\
  (forall items, NoDup (map fst (snd (reset_prices items f)))) /\
  (forall sheet, NoDup (map fst (snd (load_from_excel_if_exists sheet f)))).
Proof.
  intro H. split; [|split].
  - intros sku0 key0 payload.
    destruct (upsert_price_file sku0 key0 payload f) as [->|[d [_ ->]]];
      [exact H|now apply replace_row_nodup].
  - intro items. destruct (reset_prices_file items f) as [->|[rs [_ ->]]];
      [exact H|apply write_all_nodup; constructor].
  - intro sheet. destruct (load_file sheet f) as [->|[rows [rs [_ [_ ->]]]]];
      [exact H|now apply write_all_nodup].
Qed.

Lemma writers_keep_ids_distinct_witness :
  NoDup (map fst file_BA) /\
  NoDup (map fst (snd (upsert_price "A" "k" [("price", PInt 7)] file_BA))) /\
  NoDup (map fst (snd (reset_prices sheet_AB file_BA))) /\
  NoDup (map fst (snd (load_from_excel_if_exists (Some sheet_AB) file_BA))).
Proof.
  assert (H : NoDup (map fst file_BA)).
  { repeat constructor; cbn; intuition discriminate. }
  destruct (writers_keep_ids_distinct file_BA H) as [H1 [H2 H3]].
  exact (conj H (conj (H1 "A" "k" [("price", PInt 7)])
                      (conj (H2 sheet_AB) (H3 (Some sheet_AB))))).
Defined.

Lemma clean_records_replace (pid : string) (d : price_record) (t : table) :
  clean (sku d) -> clean (key d) ->
  clean_records t -> clean_records (replace_row pid (record_data d) t).
Proof.
  intros Cs Ck H. unfold clean_records, replace_row. apply Forall_app. split.
  - unfold clean_records in H. rewrite Forall_forall in *. intros x Hx.
    apply filter_In in Hx. now apply H.
  - constructor; [now exists d|constructor].
Qed.

(** X7. Every stored record has a sku and a key that are not empty and
    carry no blank at either end: a file of such records is still one
    after upsert_price (whatever blanks the path segments carry), after
    reset_prices and after the startup import. *)
Theorem writers_keep_records_clean (f : table) :
  clean_records f ->
  (forall sku0 key0 payload, clean_records (snd (upsert_price sku0 key0 payload f))) /\
  (forall items, clean_records (snd (reset_prices items f))) /\
  (forall sheet, clean_records (snd (load_from_excel_if_exists sheet f))).
Proof.
  intro H. split; [|split].
  - intros sku0 key0 payload.
    destruct (upsert_price_file sku0 key0 payload f) as [->|[d [N ->]]]; [exact H|].
    destruct (normalized_clean _ _ N) as [Cs Ck]. now apply clean_records_replace.
  - intro items. destruct (reset_prices_file items f) as [->|[rs [N ->]]]; [exact H|].
    apply (write_all_clean items rs [] N). constructor.
  - intro sheet. destruct (load_file sheet f) as [->|[rows [rs [_ [N ->]]]]]; [exact H|].
    now apply (write_all_clean rows rs f N).
Qed.

Lemma clean_records_BA : clean_records file_BA.
Proof.
  repeat constructor.
  - exists record_B. repeat split; discriminate.
  - exists record_A. repeat split; discriminate.
Qed.

Lemma writers_keep_records_clean_witness :
  clean_records file_BA /\
  clean_records (snd (upsert_price " A " "k" [("price", PInt 7)] file_BA)) /\
  clean_records (snd (reset_prices sheet_AB file_BA)) /\
  clean_records (snd (load_from_excel_if_exists (Some sheet_AB) file_BA)).
Proof.
  destruct (writers_keep_records_clean file_BA clean_records_BA) as [H1 [H2 H3]].
  exact (conj clean_records_BA
              (conj (H1 " A " "k" [("price", PInt 7)])
                    (conj (H2 sheet_AB) (H3 (Some sheet_AB))))).
Defined.

(** * The identity function *)

(** X8. make_id tells pairs apart as long as the skus carry no colon: two
    pairs with colon-free skus and the same id are the same pair. *)
Theorem make_id_injective (a b c d : string) :
  no_colon a = true -> no_colon c = true ->
  make_id a b = make_id c d -> a = c /\ b = d.
Proof.
  unfold make_id. revert c. induction a as [|x a IH]; intros [|y c] Ha Hc E.
  - cbn [append] in E. injection E as ->. now split.
  - cbn [append] in E. injection E as <- _. cbn [no_colon] in Hc.
    rewrite Ascii.eqb_refl in Hc. discriminate.
  - cbn [append] in E. injection E as -> _. cbn [no_colon] in Ha.
    rewrite Ascii.eqb_refl in Ha. discriminate.
  - cbn [append] in E. injection E as -> E. cbn [no_colon] in Ha, Hc.
    apply andb_true_iff in Ha as [_ Ha]. apply andb_true_iff in Hc as [_ Hc].
    destruct (IH c Ha Hc E) as [-> ->]. now split.
Qed.

Lemma make_id_injective_witness :
  no_colon "ABC" = true /\
  make_id "ABC" "retail::eu" = make_id (PyStr.strip " ABC ") "retail::eu" /\
  "ABC" = PyStr.strip " ABC " /\ "retail::eu" = "retail::eu".
Proof.
  split; [reflexivity|]. split; [reflexivity|].
  exact (make_id_injective "ABC" "retail::eu" (PyStr.strip " ABC ") "retail::eu"
           eq_refl eq_refl eq_refl).
Defined.

(* with a colon in a sku two pairs can share an id, and the PUT of one
   replaces the record of the other *)
Example make_id_collision :
  make_id "a::b" "c" = make_id "a" "b::c" /\
  snd (upsert_price "a::b" "c" [("price", PInt 2)]
         (snd (upsert_price "a" "b::c" [("price", PInt 1)] [])))
  = [record_row {| sku := "a::b"; key := "c"; price := 2; isActive := true |}].
Proof. split; vm_compute; reflexivity. Qed.

(** * Authentication *)

Lemma compare_digest_ascii (a b : string) :
  isascii a = true -> isascii b = true -> compare_digest a b = inr (String.eqb a b).
Proof. intros Ha Hb. unfold compare_digest. now rewrite Ha, Hb. Qed.

(* what require_basic_auth answers on ASCII credentials *)
Lemma require_basic_auth_ascii (env : environ) (credentials : HTTPBasicCredentials) :
  ascii_only env credentials ->
  require_basic_auth env credentials =
  if String.eqb (username credentials) (BASIC_USER env)
     && String.eqb (password credentials) (BASIC_PASS env)
  then inr true else inl (HTTPException 401 "Unauthorized").
Proof.
  intros [Hu [Hp [Hcu Hcp]]]. unfold require_basic_auth.
  rewrite (compare_digest_ascii _ _ Hu Hcu), (compare_digest_ascii _ _ Hp Hcp).
  now destruct (_ && _).
Qed.

Lemma configured_eqb (env : environ) (credentials : HTTPBasicCredentials) :
  String.eqb (username credentials) (BASIC_USER env)
  && String.eqb (password credentials) (BASIC_PASS env) = true
  <-> configured env credentials.
Proof.
  unfold configured. now rewrite andb_true_iff, !String.eqb_eq.
Qed.

(** X9. On ASCII credentials and configuration, require_basic_auth returns
    exactly for the configured username and password; for any other pair
    it raises HTTPException 401 Unauthorized. It never returns False. *)
Theorem require_basic_auth_decides (env : environ) (credentials : HTTPBasicCredentials) :
  ascii_only env credentials ->
  (configured env credentials -> require_basic_auth env credentials = inr true) /\
  (~ configured env credentials ->
   require_basic_auth env credentials = inl (HTTPException 401 "Unauthorized")) /\
  require_basic_auth env credentials <> inr false.
Proof.
  intro A. rewrite (require_basic_auth_ascii env credentials A).
  destruct (_ && _) eqn:E.
  - apply configured_eqb in E. repeat split; [now intros N|discriminate].
  - assert (N : ~ configured env credentials).
    { intro C. apply configured_eqb in C. congruence. }
    repeat split; [now intros C|discriminate].
Qed.

Lemma ascii_only_demo (credentials : HTTPBasicCredentials) :
  isascii (username credentials) = true -> isascii (password credentials) = true ->
  ascii_only [] credentials.
Proof. intros Hu Hp. now repeat split. Qed.

(* with no variable set, the credentials are the defaults of the code *)
Lemma require_basic_auth_decides_witness :
  require_basic_auth [] demo_credentials = inr true /\
  require_basic_auth [] wrong_credentials = inl (HTTPException 401 "Unauthorized").
Proof.
  split.
  - refine (proj1 (require_basic_auth_decides [] demo_credentials _) _).
    + now apply ascii_only_demo.
    + now split.
  - refine (proj1 (proj2 (require_basic_auth_decides [] wrong_credentials _)) _).
    + now apply ascii_only_demo.
    + intros [_ H]. discriminate.
Defined.

(** X10. The writing routes are closed to other credentials: with ASCII
    credentials that are not the configured ones, PUT /prices/{sku}/{key}
    and POST /prices/reset raise HTTPException 401 and leave the file as
    it was; with the configured ones they are upsert_price and
    reset_prices. *)
Theorem routes_need_credentials (env : environ) (credentials : HTTPBasicCredentials)
        (f : table) :
  ascii_only env credentials ->
  (~ configured env credentials ->
   (forall sku0 key0 payload,
       put_price env credentials sku0 key0 payload f
       = (inl (HTTPException 401 "Unauthorized"), f)) /\
   (forall items,
       post_reset env credentials items f
       = (inl (HTTPException 401 "Unauthorized"), f))) /\
  (configured env credentials ->
   (forall sku0 key0 payload,
       put_price env credentials sku0 key0 payload f
       = upsert_price sku0 key0 payload f) /\
   (forall items, post_reset env credentials items f = reset_prices items f)).
Proof.
  intro A. unfold put_price, post_reset, depends.
  rewrite (require_basic_auth_ascii env credentials A).
  destruct (_ && _) eqn:E.
  - apply configured_eqb in E. split; [now intros N|]. now intros _.
  - split; [now intros _|]. intro C. apply configured_eqb in C. congruence.
Qed.

Lemma routes_need_credentials_witness :
  put_price [] wrong_credentials "A" "k" [("price", PInt 7)] file_BA
  = (inl (HTTPException 401 "Unauthorized"), file_BA) /\
  post_reset [] demo_credentials [] file_BA = reset_prices [] file_BA.
Proof.
  split.
  - refine (proj1 (proj1 (routes_need_credentials [] wrong_credentials file_BA _) _)
              "A" "k" [("price", PInt 7)]).
    + now apply ascii_only_demo.
    + intros [_ H]. discriminate.
  - refine (proj2 (proj2 (routes_need_credentials [] demo_credentials file_BA _) _) []).
    + now apply ascii_only_demo.
    + now split.
Defined.

(** * What PUT does with its body *)

(* normalize_row reads four entries of the row and nothing else *)
Lemma normalize_row_reads (row row' : pydict) :
  dict_get row "sku" = dict_get row' "sku" ->
  dict_get row "key" = dict_get row' "key" ->
  dict_get row "price" = dict_get row' "price" ->
  dict_get row "isActive" = dict_get row' "isActive" ->
  normalize_row row = normalize_row row'.
Proof.
  intros Hs Hk Hp Ha. unfold normalize_row, get_default.
  now rewrite Hs, Hk, Hp, Ha.
Qed.

Lemma forced_get (sku0 key0 k : string) (payload : pydict) :
  dict_get (forced sku0 key0 payload) k =
  if String.eqb k "key" then Some (PStr key0)
  else if String.eqb k "sku" then Some (PStr sku0)
  else dict_get payload k.
Proof.
  unfold forced. destruct (String.eqb_spec k "key") as [->|Nk].
  - apply dict_get_set_same.
  - rewrite dict_get_set_other by exact Nk.
    destruct (String.eqb_spec k "sku") as [->|Ns].
    + apply dict_get_set_same.
    + now apply dict_get_set_other.
Qed.

(** X11. PUT reads two entries of its body, price and isActive: two bodies
    that agree on these give the same response and the same file, whatever
    else they carry, sku and key included. *)
Theorem upsert_price_reads (sku0 key0 : string) (p q : pydict) (f : table) :
  same_price_fields p q ->
  upsert_price sku0 key0 p f = upsert_price sku0 key0 q f.
Proof.
  intros [Hp Ha].
  assert (E : normalize_row (forced sku0 key0 p) = normalize_row (forced sku0 key0 q)).
  { apply normalize_row_reads; rewrite !forced_get; cbn [String.eqb Ascii.eqb Bool.eqb];
      try reflexivity; assumption. }
  unfold upsert_price. fold (forced sku0 key0 p) (forced sku0 key0 q).
  now rewrite E.
Qed.

Lemma upsert_price_reads_witness :
  same_price_fields body_zz [("price", PStr "1e3"); ("note", PStr "kept?")] /\
  upsert_price "A" "k" body_zz file_BA
  = upsert_price "A" "k" [("price", PStr "1e3"); ("note", PStr "kept?")] file_BA.
Proof.
  assert (H : same_price_fields body_zz [("price", PStr "1e3"); ("note", PStr "kept?")])
    by (split; reflexivity).
  exact (conj H (upsert_price_reads "A" "k" _ _ file_BA H)).
Defined.

(* the exceptions of normalize_row that are not ValueError: those of
   float() on a list, a dict or an int out of range *)
Lemma normalize_row_other_errors (row : pydict) :
  (exists e, normalize_row row = inl e /\ forall msg, e <> ValueError msg) <->
  field row "sku" <> "" /\ field row "key" <> "" /\
  float_refuses (get_default row "price" PNone).
Proof.
  split.
  - intros [e [H V]]. destruct (field_blank_or_not row) as [B|[Hs Hk]].
    + rewrite (normalize_row_blank_field row B) in H. injection H as <-.
      now destruct (V _ eq_refl).
    + split; [exact Hs|]. split; [exact Hk|]. revert H.
      rewrite (normalize_row_fields_ok row Hs Hk). unfold float_refuses.
      destruct (get_default row "price" PNone) as [|b|n|x|s|l|d]; cbv iota beta zeta;
        try (intro H; injection H as <-; now destruct (V _ eq_refl));
        match goal with
        | |- context [String.eqb ?a ?b] => destruct (String.eqb a b)
        end;
        try (intro H; injection H as <-; now destruct (V _ eq_refl));
        cbn [py_float]; try discriminate.
      * destruct (PyFloat.of_int n) eqn:E; [discriminate|].
        intros _. right. right. now exists n.
      * destruct (PyFloat.of_str s); [discriminate|].
        intro H; injection H as <-; now destruct (V _ eq_refl).
      * intros _. left. now exists l.
      * intros _. right. left. now exists d.
  - intros [Hs [Hk R]]. rewrite (normalize_row_fields_ok row Hs Hk).
    destruct R as [[l ->]|[[d ->]|[n [-> E]]]]; cbv iota beta zeta.
    + destruct (String.eqb_spec (PyStr.strip (py_str (PList l))) "") as [B|_].
      * exfalso. revert B. cbn [py_str py_repr append]. now apply strip_head.
      * cbn [py_float]. eexists. split; [reflexivity|]. intros msg. discriminate.
    + destruct (String.eqb_spec (PyStr.strip (py_str (PDict d))) "") as [B|_].
      * exfalso. revert B. cbn [py_str py_repr append]. now apply strip_head.
      * cbn [py_float]. eexists. split; [reflexivity|]. intros msg. discriminate.
    + destruct (String.eqb_spec (PyStr.strip (py_str (PInt n))) "") as [B|_].
      * exfalso. revert B. cbn [py_str py_repr]. apply solid_strip, of_int_solid.
      * cbn [py_float]. rewrite E. eexists. split; [reflexivity|]. intros msg. discriminate.
Qed.

(** X12. An exception other than HTTPException leaves PUT, to be answered
    as an internal error, exactly when the path segments are not blank and
    the price of the body is a list, a dict, or an int beyond the range of
    float; every other failure of PUT is an HTTPException 400. *)
Theorem upsert_price_unhandled (sku0 key0 : string) (payload : pydict) (f : table) :
  ((exists e, fst (upsert_price sku0 key0 payload f) = inl e /\ unhandled e) <->
   PyStr.strip sku0 <> "" /\ PyStr.strip key0 <> "" /\
   float_refuses (get_default payload "price" PNone)) /\
  (forall e, fst (upsert_price sku0 key0 payload f) = inl e ->
             unhandled e \/ exists msg, e = HTTPException 400 msg).
Proof.
  pose proof (normalize_row_other_errors (forced sku0 key0 payload)) as L.
  unfold field in L. rewrite forced_sku, forced_key in L.
  rewrite forced_other in L by discriminate. cbn [py_str] in L.
  unfold upsert_price. fold (forced sku0 key0 payload).
  destruct (normalize_row (forced sku0 key0 payload)) as [e|d] eqn:E.
  - assert (U : unhandled e) by (intros c m ->; now apply (normalize_row_not_http _ _ _ E)).
    destruct e as [msg|msg|msg|c m]; cbn [fst].
    + split.
      * split.
        -- intros [e [H Ue]]. injection H as <-. now destruct (Ue 400 msg).
        -- intro R. apply L in R. destruct R as [e [He V]]. injection He as <-.
           now destruct (V msg).
      * intros e H. injection H as <-. right. now exists msg.
    + split.
      * split; [intros _|intros _; eexists; split; [reflexivity|exact U]].
        apply L. eexists. split; [reflexivity|]. intro m. discriminate.
      * intros e H. injection H as <-. now left.
    + split.
      * split; [intros _|intros _; eexists; split; [reflexivity|exact U]].
        apply L. eexists. split; [reflexivity|]. intro m. discriminate.
      * intros e H. injection H as <-. now left.
    + now destruct (U c m).
  - cbn [fst]. split.
    + split.
      * intros [e [H _]]. discriminate.
      * intro R. apply L in R. destruct R as [e [He _]]. discriminate.
    + intros e H. discriminate.
Qed.

Lemma upsert_price_unhandled_witness :
  exists e, fst (upsert_price "A" "k" [("price", PInt (10 ^ 400))] file_BA) = inl e /\
            unhandled e.
Proof.
  refine (proj2 (proj1 (upsert_price_unhandled "A" "k" [("price", PInt (10 ^ 400))]
                          file_BA)) _).
  split; [vm_compute; discriminate|]. split; [vm_compute; discriminate|].
  right. right. exists (10 ^ 400). split; [reflexivity|vm_compute; reflexivity].
Defined.

(** * The listing is stable *)

Lemma tuple_lt_irrefl (k : string * string) : tuple_lt k k = false.
Proof.
  unfold tuple_lt, String.ltb. now rewrite String.eqb_refl, string_compare_refl.
Qed.

Lemma key_is_eq (a b : string) (k : string * string) :
  key_is a b k = true <-> k = (a, b).
Proof.
  destruct k as [a' b']. unfold key_is. cbn [fst snd].
  rewrite andb_true_iff, !String.eqb_eq. split; [now intros [-> ->]|].
  intro E. now injection E.
Qed.

(* inserting moves x past rows with smaller keys only *)
Lemma insert_filter (a b : string) (x : keyed) (l : list keyed) :
  filter (fun p => key_is a b (fst p)) (insert x l)
  = filter (fun p => key_is a b (fst p)) (x :: l).
Proof.
  induction l as [|y l IH]; [reflexivity|].
  cbn [insert]. destruct (tuple_lt (fst y) (fst x)) eqn:E; [|reflexivity].
  cbn [filter] in *. rewrite IH.
  destruct (key_is a b (fst y)) eqn:Ky; [|reflexivity].
  destruct (key_is a b (fst x)) eqn:Kx; [|reflexivity].
  apply key_is_eq in Ky, Kx. rewrite Ky, Kx, tuple_lt_irrefl in E. discriminate.
Qed.

Lemma sort_filter (a b : string) (l : list keyed) :
  filter (fun p => key_is a b (fst p)) (sort l)
  = filter (fun p => key_is a b (fst p)) l.
Proof.
  induction l as [|x l IH]; [reflexivity|].
  cbn [sort]. rewrite insert_filter. cbn [filter]. now rewrite IH.
Qed.

Lemma well_keyed_filter (a b : string) (l : list keyed) :
  well_keyed l ->
  filter (has_pair a b) (map snd l)
  = map snd (filter (fun p => key_is a b (fst p)) l).
Proof.
  induction 1 as [|p l Hp _ IH]; [reflexivity|].
  cbn [map filter]. unfold has_pair at 1. rewrite Hp.
  replace (let (a', b') := fst p in (String.eqb a' a && String.eqb b' b)%bool)
    with (key_is a b (fst p)) by (unfold key_is; now destruct (fst p)).
  destruct (key_is a b (fst p)); cbn [map]; now rewrite IH.
Qed.

Lemma sort_well_keyed (l : list keyed) : well_keyed l -> well_keyed (sort l).
Proof.
  unfold well_keyed. rewrite !Forall_forall. intros W p Hp.
  apply W. now apply (Permutation_in p (Permutation_sym (sort_perm l))).
Qed.

(** X13. The listing is stable: among the rows of a file of records, those
    with one and the same sku and key are listed in the order in which
    they are stored. *)
Theorem list_prices_stable (f : table) :
  holds_records f ->
  exists rows,
    list_prices f = (Some rows, f) /\
    forall a b, filter (has_pair a b) rows = filter (has_pair a b) (decoded f).
Proof.
  intro H.
  destruct (sort_rows_sorted (decoded f) (holds_records_keys f H))
    as [l [Hl [Hs _]]].
  destruct (decorate_rows _ _ Hl) as [E W].
  exists (map snd (sort l)). rewrite list_prices_unfold, Hs.
  split; [reflexivity|]. intros a b.
  rewrite <- E, (well_keyed_filter a b l W).
  rewrite (well_keyed_filter a b (sort l) (sort_well_keyed l W)).
  now rewrite sort_filter.
Qed.

Lemma holds_records_padded : holds_records file_padded.
Proof. repeat constructor; eexists; reflexivity. Qed.

(* the row under the padded id is listed before the other row for ABC,
   retail, both behind the row for AAA *)
Lemma list_prices_stable_witness :
  holds_records file_padded /\
  exists rows,
    list_prices file_padded = (Some rows, file_padded) /\
    forall a b, filter (has_pair a b) rows = filter (has_pair a b) (decoded file_padded).
Proof.
  exact (conj holds_records_padded (list_prices_stable file_padded holds_records_padded)).
Defined.

Example list_prices_padded :
  fst (list_prices file_padded)
  = Some [listed {| sku := "AAA"; key := "retail"; price := 3; isActive := true |};
          listed {| sku := "ABC"; key := "retail"; price := 1; isActive := true |};
          listed {| sku := "ABC"; key := "retail"; price := 2; isActive := true |}].
Proof. reflexivity. Qed.

(** * Listing, then resetting with the listing *)










Lemma normal_file_BA : normal_file file_BA.
Proof.
  split.
  - repeat constructor; cbn; intuition discriminate.
  - repeat constructor.
    + exists record_B. repeat split; discriminate.
    + exists record_A. repeat split; discriminate.
Qed.


(** * Rows under the id of their own record *)

Lemma normal_rows_replace (d : price_record) (t : table) :
  clean (sku d) -> clean (key d) ->
  normal_file t -> normal_file (replace_row (record_id d) (record_data d) t).
Proof.
  intros Cs Ck [N F]. split; [now apply replace_row_nodup|].
  unfold replace_row. apply Forall_app. split.
  - rewrite Forall_forall in *. intros x Hx. apply filter_In in Hx. now apply F.
  - constructor; [now exists d|constructor].
Qed.

Lemma normal_rows_write_all (items : list pydict) (rs : list price_record) (t : table) :
  all_normalize items rs -> normal_file t -> normal_file (write_all rs t).
Proof.
  intros A [N F]. split; [now apply write_all_nodup|].
  rewrite write_all_rows. apply Forall_app. split.
  - rewrite Forall_forall in *. intros x Hx. apply filter_In in Hx. now apply F.
  - rewrite Forall_forall. intros x Hx.
    destruct (last_rows_in rs x Hx) as [r [Hr ->]]. exists r. split; [reflexivity|].
    clear - A Hr. induction A as [|item r' items rs E _ IH]; [contradiction|].
    destruct Hr as [->|Hr]; [now apply (normalized_clean item)|now apply IH].
Qed.

(** X15. Rows stay under the id of their own record: in a file with
    pairwise distinct ids where every row is stored under sku::key of the
    clean record it holds, this is still so after reset_prices and after
    the startup import, and after upsert_price when the path segments
    carry no blank at either end. *)
Theorem writers_keep_rows_keyed (f : table) :
  normal_file f ->
  (forall items, normal_file (snd (reset_prices items f))) /\
  (forall sheet, normal_file (snd (load_from_excel_if_exists sheet f))) /\
  (forall sku0 key0 payload,
      PyStr.strip sku0 = sku0 -> PyStr.strip key0 = key0 ->
      normal_file (snd (upsert_price sku0 key0 payload f))).
Proof.
  intro H. split; [|split].
  - intro items. destruct (reset_prices_file items f) as [->|[rs [A ->]]]; [exact H|].
    apply (normal_rows_write_all items rs [] A). split; constructor.
  - intro sheet. destruct (load_file sheet f) as [->|[rows [rs [_ [A ->]]]]]; [exact H|].
    now apply (normal_rows_write_all rows rs f A).
  - intros sku0 key0 payload Ts Tk.
    destruct (upsert_price_file sku0 key0 payload f) as [->|[d [E ->]]]; [exact H|].
    destruct (normalized_clean _ _ E) as [Cs Ck].
    destruct (normalize_row_fields _ _ E) as [Hs [Hk _]].
    rewrite forced_sku in Hs. rewrite forced_key in Hk. cbn [py_str] in Hs, Hk.
    replace (make_id sku0 key0) with (record_id d)
      by (unfold record_id; now rewrite Hs, Hk, Ts, Tk).
    now apply normal_rows_replace.
Qed.

Lemma writers_keep_rows_keyed_witness :
  normal_file file_BA /\
  normal_file (snd (reset_prices sheet_AB file_BA)) /\
  normal_file (snd (load_from_excel_if_exists (Some sheet_AB) file_BA)) /\
  normal_file (snd (upsert_price "A" "k" [("price", PInt 7)] file_BA)).
Proof.
  destruct (writers_keep_rows_keyed file_BA normal_file_BA) as [H1 [H2 H3]].
  exact (conj normal_file_BA
              (conj (H1 sheet_AB)
                    (conj (H2 (Some sheet_AB))
                          (H3 "A" "k" [("price", PInt 7)] eq_refl eq_refl)))).
Defined.

(* with a blank in the path it is not so: the row goes under the id of the
   path, which is not the id of the record it holds *)
Example upsert_price_padded_id :
  snd (upsert_price " ABC" "retail" [("price", PInt 1)] [])
  = [(" ABC::retail", record_data {| sku := "ABC"; key := "retail"; price := 1;
                                     isActive := true |})] /\
  record_id {| sku := "ABC"; key := "retail"; price := 1; isActive := true |}
  = "ABC::retail".
Proof. split; vm_compute; reflexivity. Qed.

(* the normalizer takes what float() takes: nan and inf are prices *)
Example normalize_row_not_finite :
  normalize_row [("sku", PStr "a"); ("key", PStr "k"); ("price", PStr " NaN ")]
  = inr {| sku := "a"; key := "k"; price := nan; isActive := true |} /\
  normalize_row [("sku", PStr "a"); ("key", PStr "k"); ("price", PStr "-inf")]
  = inr {| sku := "a"; key := "k"; price := neg_infinity; isActive := true |}.
Proof. split; vm_compute; reflexivity. Qed.

(* a username that is not ASCII is a TypeError of compare_digest *)
Example require_basic_auth_not_ascii :
  require_basic_auth [] {| username := String (PyStr.chr 233) "tienne";
                           password := "change-me" |}
  = inl (TypeError "comparing strings with non-ASCII characters is not supported").
Proof. vm_compute. reflexivity. Qed.
